(** * Teaching notebooks: helper functions and cells of [03_ML_and_dataviz]
      and [HashingTrick]

    The notebooks are sequences of Python cells.  The repository-defined
    functions ([plot_image], [plot_digits_embedding], [im_colorize_rgba],
    [im_reshape_bw]) and the cells the properties below talk about are
    embedded as Rocq functions:

    - Python exceptions are values of [exn]; code that may raise returns
      [result A = exn + A];
    - code that calls [matplotlib.pyplot], prints, reads the clock or touches
      the file system threads a [world] through the monad [M];
    - numpy arrays are a shape and the row-major list of their elements;
    - third-party libraries (sklearn, umap, keras) are an interface whose
      operations are parameters of the cells. *)

From Stdlib Require Import ZArith QArith Qminmax Lia Lqa.
From stdpp Require Import base list strings gmap pretty.

Local Open Scope Z_scope.

(** ** Python exceptions and results *)

Module Py.

(** The exception classes the notebooks can meet.  [KeyboardInterrupt] and
    [SystemExit] derive from [BaseException] only; the others derive from
    [Exception]. *)
Inductive exn_class :=
| KeyboardInterrupt | SystemExit
| ValueError | IndexError | NameError | NotImplementedError
| AssertionError | ImportError | UsageError | OSError.

Record exn := Exn { exn_class_of : exn_class; exn_msg : string }.

(** [isinstance(e, Exception)] *)
Definition is_Exception (e : exn) : bool :=
  match exn_class_of e with
  | KeyboardInterrupt | SystemExit => false
  | _ => true
  end.

Definition result (A : Type) : Type := exn + A.

Definition ok {A} (a : A) : result A := inr a.
Definition throw {A} (c : exn_class) (msg : string) : result A := inl (Exn c msg).

Definition rbind {A B} (r : result A) (k : A -> result B) : result B :=
  match r with
  | inl e => inl e
  | inr a => k a
  end.

Definition raises {A} (c : exn_class) (r : result A) : Prop :=
  exists msg, r = inl (Exn c msg).

End Py.
Import Py.

Declare Scope result_scope.
Delimit Scope result_scope with result.
Notation "x <- r ;; k" := (rbind r (fun x => k))
  (at level 100, r at next level, right associativity) : result_scope.

(** ** numpy arrays *)

Module Np.

(** The scalar operations the helpers use on array elements.  [to_int] is the
    conversion to an integer performed by [astype] (truncation towards
    zero). *)
Class Scalar (F : Type) := {
  smul : F -> F -> F;
  sdiv : F -> F -> F;
  of_Z : Z -> F;
  to_int : F -> Z
}.

(** An array is its shape and its elements in row-major (C) order. *)
Record ndarray (A : Type) := NdArray { shape : list nat; data : list A }.
Arguments NdArray {A} shape data.
Arguments shape {A} _.
Arguments data {A} _.

Definition prod_shape (s : list nat) : nat := foldr Nat.mul 1%nat s.

(** Well-formed arrays hold as many elements as their shape says. *)
Definition wf {A} (a : ndarray A) : Prop := length (data a) = prod_shape (shape a).

Definition ndim {A} (a : ndarray A) : nat := length (shape a).
Definition size {A} (a : ndarray A) : nat := length (data a).

(** [a.reshape(s)] *)
Definition reshape {A} (s : list nat) (a : ndarray A) : result (ndarray A) :=
  if decide (prod_shape s = size a) then ok (NdArray s (data a))
  else throw ValueError "cannot reshape array".

(** [a[..., np.newaxis]]: a new last axis of length 1. *)
Definition newaxis_last {A} (a : ndarray A) : ndarray A :=
  NdArray (shape a ++ [1%nat]) (data a).

(** [a * v] for [a] with a last axis of length 1 and a vector [v]: the last
    axis is broadcast to the length of [v]. *)
Definition mul_vector `{Scalar F} (a : ndarray F) (v : list F) : ndarray F :=
  NdArray (removelast (shape a) ++ [length v])
          (flat_map (fun x => map (smul x) v) (data a)).

(** [a * c] for a Python number [c]. *)
Definition mul_scalar `{Scalar F} (a : ndarray F) (c : Z) : ndarray F :=
  NdArray (shape a) (map (fun x => smul x (of_Z c)) (data a)).

(** The [k] consecutive blocks of [n] elements of [l]. *)
Fixpoint chunks {A} (k n : nat) (l : list A) : list (list A) :=
  match k with
  | O => []
  | S k' => take n l :: chunks k' n (drop n l)
  end.

(** [np.flipud(a)]: the entries along the first axis in reverse order. *)
Definition flipud {A} (a : ndarray A) : result (ndarray A) :=
  match shape a with
  | [] => throw ValueError "Input must be >= 1-d."
  | rows :: rest =>
      ok (NdArray (shape a) (concat (reverse (chunks rows (prod_shape rest) (data a)))))
  end.

(** [a.astype(np.uint8)] *)
Definition astype_uint8 `{Scalar F} (a : ndarray F) : ndarray Z :=
  NdArray (shape a) (map (fun x => to_int x mod 256) (data a)).

(** [np.squeeze(a)]: axes of length 1 are removed. *)
Definition squeeze {A} (a : ndarray A) : ndarray A :=
  NdArray (filter (fun d => d <> 1%nat) (shape a)) (data a).

(** Four bytes read as one little-endian 32-bit word. *)
Definition pack_uint32 (b0 b1 b2 b3 : Z) : Z :=
  Z.lor (Z.lor b0 (Z.shiftl b1 8)) (Z.lor (Z.shiftl b2 16) (Z.shiftl b3 24)).

Fixpoint pack_words (l : list Z) : list Z :=
  match l with
  | b0 :: b1 :: b2 :: b3 :: rest => pack_uint32 b0 b1 b2 b3 :: pack_words rest
  | _ => []
  end.

(** [a.view(np.uint32)] on an array of bytes: the last axis is regrouped
    four bytes at a time. *)
Definition view_uint32 (a : ndarray Z) : result (ndarray Z) :=
  match shape a with
  | [] => throw ValueError "Changing the dtype of a 0d array is only supported if the itemsize is unchanged"
  | _ :: _ =>
      let n := List.last (shape a) 0%nat in
      if decide (n `mod` 4 = 0)%nat
      then ok (NdArray (removelast (shape a) ++ [(n `div` 4)%nat]) (pack_words (data a)))
      else throw ValueError "When changing to a larger dtype, its size must be a divisor of the total size in bytes of the last axis of the array."
  end.

(** [a[i, j]] of a 2-dimensional array, for indices within bounds. *)
Definition get2 {A} (a : ndarray A) (i j : nat) : option A :=
  match shape a with
  | [r; c] => if decide (i < r /\ j < c)%nat then data a !! (i * c + j)%nat else None
  | _ => None
  end.

End Np.
Import Np.

#[export] Instance Q_scalar : Scalar Q := {
  smul := Qmult;
  sdiv := Qdiv;
  of_Z := inject_Z;
  to_int q := Z.quot (Qnum q) (Zpos (Qden q))
}.

#[export] Instance Z_scalar : Scalar Z := {
  smul := Z.mul;
  sdiv := Z.quot;
  of_Z z := z;
  to_int z := z
}.

(** ** matplotlib: the [tab10] colour map and the [pyplot] calls *)

Module Mpl.

(** The ten colours of [tab10], as bytes; the colour map returns them divided
    by 255, with opacity 1. *)
Definition tab10_rgb : list (Z * Z * Z) :=
  [ (31, 119, 180); (255, 127, 14); (44, 160, 44); (214, 39, 40);
    (148, 103, 189); (140, 86, 75); (227, 119, 194); (127, 127, 127);
    (188, 189, 34); (23, 190, 207) ].

(** [mpl.cm.tab10(label)] for an integer [label]: indices below 0 and above 9
    take the first and the last colour. *)
Definition tab10 `{Scalar F} (label : Z) : list F :=
  let '(r, g, b) := nth (Z.to_nat (Z.max 0 (Z.min label 9))) tab10_rgb (0, 0, 0) in
  [ sdiv (of_Z r) (of_Z 255); sdiv (of_Z g) (of_Z 255);
    sdiv (of_Z b) (of_Z 255); of_Z 1 ].

(** A float that a division of two finite numbers produces. *)
Inductive npfloat := Finite (q : Q) | NaN | Inf (negative : bool).

(** The axes a [plt.subplot(nrows, ncols, index)] call returns. *)
Definition axes : Type := Z * Z * Z.

Inductive plt_call :=
| Figure (figsize : Q * Q)
| Subplot (ax : axes)
| Text (x y : npfloat) (s : string) (color : list Q) (weight : string) (size : Z)
| Xticks (ticks : list Q)
| Yticks (ticks : list Q)
| Title (s : string)
| SubplotsAdjust (wspace hspace : Q)
| Show.

End Mpl.
Import Mpl.

(** ** The notebook monad *)

(** What a cell can change besides its variables: the calls made to
    [pyplot], the files of the working directory, what was printed, and the
    state [E] of everything else (clock, random generators, the network). *)
Record world (E : Type) := World {
  plt_calls : list plt_call;
  files : gmap string (list Z);
  stdout : list string;
  ext : E
}.
Arguments World {E} _ _ _ _.
Arguments plt_calls {E} _.
Arguments files {E} _.
Arguments stdout {E} _.
Arguments ext {E} _.

Definition M (E A : Type) : Type := world E -> result A * world E.

Definition mret {E A} (a : A) : M E A := fun w => (inr a, w).

Definition mraise {E A} (c : exn_class) (msg : string) : M E A :=
  fun w => (inl (Exn c msg), w).

Definition mbind {E A B} (m : M E A) (k : A -> M E B) : M E B :=
  fun w =>
    match m w with
    | (inl e, w') => (inl e, w')
    | (inr a, w') => k a w'
    end.

(** A computation that does not touch the world. *)
Definition lift {E A} (r : result A) : M E A := fun w => (r, w).

(** [try: body except Exception: handler] *)
Definition try_except_Exception {E A} (body : M E A) (handler : M E A) : M E A :=
  fun w =>
    match body w with
    | (inl e, w') => if is_Exception e then handler w' else (inl e, w')
    | (inr a, w') => (inr a, w')
    end.

(** [for x in l: body(x)] *)
Fixpoint for_each {E A} (l : list A) (body : A -> M E unit) : M E unit :=
  match l with
  | [] => mret tt
  | x :: l' => mbind (body x) (fun _ => for_each l' body)
  end.

Declare Scope notebook_scope.
Delimit Scope notebook_scope with notebook.
Notation "x <- m ;; k" := (mbind m (fun x => k))
  (at level 100, m at next level, right associativity) : notebook_scope.
Notation "m ;;; k" := (mbind m (fun _ => k))
  (at level 100, right associativity) : notebook_scope.

Definition plt_do {E} (c : plt_call) : M E unit :=
  fun w => (inr tt, World (plt_calls w ++ [c]) (files w) (stdout w) (ext w)).

Definition plt_subplot {E} (nrows ncols index : Z) : M E axes :=
  mbind (plt_do (Subplot (nrows, ncols, index))) (fun _ => mret (nrows, ncols, index)).

Definition print {E} (s : string) : M E unit :=
  fun w => (inr tt, World (plt_calls w) (files w) (stdout w ++ [s]) (ext w)).

(** [l[i]] on a Python sequence: negative indices count from the end. *)
Definition py_index {A} (l : list A) (i : Z) : result A :=
  let n := Z.of_nat (length l) in
  let k := if decide (i < 0) then i + n else i in
  if decide (0 <= k < n) then
    match l !! Z.to_nat k with
    | Some a => ok a
    | None => throw IndexError "index out of range"
    end
  else throw IndexError "index out of range".

(** ** The image helpers *)

Section ImageHelpers.
Context `{Scalar F}.
Local Open Scope result_scope.

(** [def im_reshape_bw(arr)] *)
Definition im_reshape_bw (arr : ndarray F) : result (ndarray F) :=
  out_img <- reshape [28; 28]%nat arr ;;
  let out_img := mul_scalar out_img 255 in
  out_img <- flipud out_img ;;
  ok out_img.

(** [def im_colorize_rgba(arr, label)] *)
Definition im_colorize_rgba (arr : ndarray F) (label : Z) : result (ndarray Z) :=
  let color := tab10 label in
  out_img <-
    (if decide (ndim arr = 1%nat) then
       x <- reshape [28; 28; 4]%nat (mul_vector (newaxis_last arr) color) ;;
       ok (mul_scalar x 255)
     else if decide (ndim arr = 2%nat) then
       ok (mul_scalar (mul_vector (newaxis_last arr) color) 255)
     else throw ValueError "Image format not handled (yet).") ;;
  out_img <- flipud out_img ;;
  view_uint32 (squeeze (astype_uint8 out_img)).

End ImageHelpers.

(** ** The plotting helpers *)

Section PlottingHelpers.
Context {E : Type}.
Local Open Scope notebook_scope.

(** [def plot_image(img, reshape_size=None, cmap="binary", ax=None, title=None)] *)
Definition plot_image `{Scalar F} (img : ndarray F) (reshape_size : option (list nat))
    (cmap : string) (ax : option axes) (title : option string) : M E (option axes) :=
  mraise (A:=unit) NotImplementedError "TODO" ;;;
  mret ax.

(** [np.min(col)] and [np.max(col)] of one column. *)
Definition amin (col : list Q) : result Q :=
  match col with
  | [] => throw ValueError "zero-size array to reduction operation minimum which has no identity"
  | x :: t => ok (foldl Qmin x t)
  end.

Definition amax (col : list Q) : result Q :=
  match col with
  | [] => throw ValueError "zero-size array to reduction operation maximum which has no identity"
  | x :: t => ok (foldl Qmax x t)
  end.

(** [np.min(X2d, 0)] and [np.max(X2d, 0)] of an array of two columns. *)
Definition np_min0 (X2d : list (Q * Q)) : result (Q * Q) :=
  (m0 <- amin X2d.*1 ;; m1 <- amin X2d.*2 ;; ok (m0, m1))%result.

Definition np_max0 (X2d : list (Q * Q)) : result (Q * Q) :=
  (m0 <- amax X2d.*1 ;; m1 <- amax X2d.*2 ;; ok (m0, m1))%result.

(** [a / b] on finite floats, taken as exact rationals: a zero divisor gives
    [nan] (for 0/0) or an infinity. *)
Definition np_divide (a b : Q) : npfloat :=
  if Qeq_bool b 0 then
    if Qeq_bool a 0 then NaN else Inf (negb (Qle_bool 0 a))
  else Finite (a / b).

(** [(X2d - x_min) / (x_max - x_min)], broadcast over the rows. *)
Definition rescale (X2d : list (Q * Q)) (x_min x_max : Q * Q) : list (npfloat * npfloat) :=
  map (fun r => (np_divide (r.1 - x_min.1) (x_max.1 - x_min.1),
                 np_divide (r.2 - x_min.2) (x_max.2 - x_min.2))) X2d.

(** [def plot_digits_embedding(X2d, y, title=None, remove_ticks=True)] *)
Definition plot_digits_embedding (X2d : list (Q * Q)) (y : list Z)
    (title : option string) (remove_ticks : bool) : M E unit :=
  x_min <- lift (np_min0 X2d) ;;
  x_max <- lift (np_max0 X2d) ;;
  let X := rescale X2d x_min x_max in
  plt_do (Figure (20, 10)%Q) ;;;
  ax <- plt_subplot 1 1 1 ;;
  for_each (seqZ 0 (Z.of_nat (length X))) (fun i =>
    Xi <- lift (py_index X i) ;;
    yi <- lift (py_index y i) ;;
    plt_do (Text Xi.1 Xi.2 (pretty yi) (tab10 yi) "bold" 9)) ;;;
  (if remove_ticks then plt_do (Xticks []) ;;; plt_do (Yticks []) else mret tt) ;;;
  match title with
  | Some t => plt_do (Title t)
  | None => mret tt
  end.

End PlottingHelpers.



(** ** sklearn's [FeatureHasher], as its documentation and source describe it *)

Module Murmur.

(** MurmurHash3, 32-bit variant, on the bytes of the key. *)
Definition mask32 (x : Z) : Z := Z.land x 0xffffffff.

Definition rotl32 (x r : Z) : Z :=
  mask32 (Z.lor (Z.shiftl x r) (Z.shiftr x (32 - r))).

Definition mix_k (k : Z) : Z :=
  mask32 (rotl32 (mask32 (k * 0xcc9e2d51)) 15 * 0x1b873593).

Definition mix_h (h k : Z) : Z :=
  mask32 (rotl32 (Z.lxor h (mix_k k)) 13 * 5 + 0xe6546b64).

Fixpoint blocks (h : Z) (key : list Z) : Z :=
  match key with
  | b0 :: b1 :: b2 :: b3 :: rest => blocks (mix_h h (pack_uint32 b0 b1 b2 b3)) rest
  | [b0; b1; b2] => Z.lxor h (mix_k (pack_uint32 b0 b1 b2 0))
  | [b0; b1] => Z.lxor h (mix_k (pack_uint32 b0 b1 0 0))
  | [b0] => Z.lxor h (mix_k (pack_uint32 b0 0 0 0))
  | [] => h
  end.

Definition fmix32 (h : Z) : Z :=
  let h := Z.lxor h (Z.shiftr h 16) in
  let h := mask32 (h * 0x85ebca6b) in
  let h := Z.lxor h (Z.shiftr h 13) in
  let h := mask32 (h * 0xc2b2ae35) in
  Z.lxor h (Z.shiftr h 16).

Definition murmurhash3_32 (key : list Z) (seed : Z) : Z :=
  fmix32 (Z.lxor (blocks seed key) (Z.of_nat (length key))).

(** The hash read as a signed 32-bit integer. *)
Definition to_s32 (h : Z) : Z := if decide (h < 2 ^ 31) then h else h - 2 ^ 32.

Definition bytes_of_string (s : string) : list Z :=
  map (fun c => Z.of_N (Ascii.N_of_ascii c)) (String.list_ascii_of_string s).

Definition murmurhash3_bytes_s32 (s : string) (seed : Z) : Z :=
  to_s32 (murmurhash3_32 (bytes_of_string s) seed).

End Murmur.

Module FeatureHasher.

(** [FeatureHasher(n_features=..)], with the default [input_type="dict"] and
    [alternate_sign=True]. *)
Record t := Make { n_features : Z; alternate_sign : bool }.

Definition default (n_features : Z) : t := Make n_features true.

(** The sparse matrix [transform] returns: its shape, and for every sample
    the (column, value) entries in the order they were hashed. *)
Record csr := Csr { csr_shape : nat * Z; csr_rows : list (list (Z * Z)) }.

Section Hashing.
(** The hash function of the feature names. *)
Variable hash : string -> Z.

Definition column (h : t) (code : Z) : Z :=
  if decide (code = -2147483648)
  then (2147483647 - (n_features h - 1)) `mod` n_features h
  else Z.abs code `mod` n_features h.

Definition entry (h : t) (f : string) (v : Z) : list (Z * Z) :=
  if decide (v = 0) then []
  else
    let code := hash f in
    let value := if alternate_sign h then v * (if decide (0 <= code) then 1 else -1) else v in
    [(column h code, value)].

(** [h.transform(raw_X)] on a list of dicts from feature names to numbers. *)
Definition transform (h : t) (raw_X : list (gmap string Z)) : result csr :=
  match raw_X with
  | [] => throw ValueError "Cannot vectorize empty sequence."
  | _ :: _ =>
      ok (Csr (length raw_X, n_features h)
              (map (fun x => flat_map (fun fv => entry h fv.1 fv.2) (map_to_list x)) raw_X))
  end.
End Hashing.

(** [f.toarray()]: the dense array, entries of the same column added up. *)
Definition toarray (f : csr) : list (list Z) :=
  map (fun row =>
         map (fun j => foldr Z.add 0 (map snd (filter (fun e => e.1 = j) row)))
             (seqZ 0 (csr_shape f).2))
      (csr_rows f).

End FeatureHasher.

(** The code cell of the HashingTrick notebook. *)
Definition HashingTrick_D : list (gmap string Z) :=
  [ list_to_map [("dog", 1); ("cat", 2); ("elephant", 4)];
    list_to_map [("dog", 2); ("run", 5)] ].

Definition HashingTrick_cell (hash : string -> Z) : result (list (list Z)) :=
  (let h := FeatureHasher.default 10 in
   let D := HashingTrick_D in
   f <- FeatureHasher.transform hash h D ;;
   ok (FeatureHasher.toarray f))%result.

(** ** The third-party libraries the cells call *)

Definition matrix : Type := list (list Q).
Definition points : Type := list (Q * Q).

(** The layers the convolutional network is assembled from. *)
Inductive layer :=
| Conv2D (filters kernel_size : Z) (activation padding : string)
         (input_shape : option (list Z))
| MaxPooling2D (pool_size : Z)
| Flatten
| Dense (units : Z) (activation : string)
| Dropout (rate : Q).

(** What the cells use of sklearn, umap, IPython, tensorflow and keras.  The
    operations act on the state [E] of the outside world (clock, random
    generators, installed packages) and may raise. *)
Record Libraries (E : Type) := {
  time : E -> Q * E;
  format_2f : Q -> string;
  format_f : Q -> string;
  SparseRandomProjection_fit_transform :
    Z -> Z -> matrix -> E -> result points * E;
  PCA_fit_transform : Z -> string -> matrix -> E -> result points * E;
  MDS_fit_transform : Z -> Z -> Z -> matrix -> E -> result (points * Q) * E;
  TSNE_fit_transform : Z -> string -> Z -> matrix -> E -> result points * E;
  import_umap : E -> result unit * E;
  UMAP_model : Type;
  UMAP_fit : Z -> Q -> string -> matrix -> E -> result UMAP_model * E;
  UMAP_transform : UMAP_model -> matrix -> E -> result points * E;
  magic_tensorflow_version : string -> E -> result unit * E;
  import_tensorflow : E -> result string * E;
  import_keras : E -> result unit * E;
  Model : Type;
  History : Type;
  Sequential : list layer -> E -> result Model * E;
  Sequential_of_models : list Model -> E -> result Model * E;
  model_compile : Model -> string -> string -> list string -> E -> result Model * E;
  model_fit : Model -> ndarray Q -> list Z -> Z -> ndarray Q * list Z ->
              E -> result (Model * History) * E;
  model_evaluate : Model -> ndarray Q -> list Z -> E -> result (list Q) * E;
  model_predict : Model -> ndarray Q -> E -> result (ndarray Q) * E;
  model_to_png : Model -> bool -> E -> result (list Z) * E;
  model_to_h5 : Model -> list Z;
  model_of_h5 : list Z -> E -> result Model * E
}.
Arguments time {E} _ _.
Arguments format_2f {E} _ _.
Arguments format_f {E} _ _.
Arguments SparseRandomProjection_fit_transform {E} _ _ _ _ _.
Arguments PCA_fit_transform {E} _ _ _ _ _.
Arguments MDS_fit_transform {E} _ _ _ _ _ _.
Arguments TSNE_fit_transform {E} _ _ _ _ _ _.
Arguments import_umap {E} _ _.
Arguments UMAP_model {E} _.
Arguments UMAP_fit {E} _ _ _ _ _ _.
Arguments UMAP_transform {E} _ _ _ _.
Arguments magic_tensorflow_version {E} _ _ _.
Arguments import_tensorflow {E} _ _.
Arguments import_keras {E} _ _.
Arguments Model {E} _.
Arguments History {E} _.
Arguments Sequential {E} _ _ _.
Arguments Sequential_of_models {E} _ _ _.
Arguments model_compile {E} _ _ _ _ _ _.
Arguments model_fit {E} _ _ _ _ _ _ _.
Arguments model_evaluate {E} _ _ _ _ _.
Arguments model_predict {E} _ _ _ _.
Arguments model_to_png {E} _ _ _ _.
Arguments model_to_h5 {E} _ _.
Arguments model_of_h5 {E} _ _ _.

(** A library call, run on the outside part of the world. *)
Definition call {E A} (f : E -> result A * E) : M E A :=
  fun w =>
    let '(r, e) := f (ext w) in
    (r, World (plt_calls w) (files w) (stdout w) e).

(** [time()] *)
Definition now {E} (L : Libraries E) : M E Q :=
  call (fun e => let '(t, e') := time L e in (inr t, e')).

(** [os.path.exists(path)] *)
Definition os_path_exists {E} (path : string) : M E bool :=
  fun w => (inr (bool_decide (is_Some (files w !! path))), w).

Definition write_file {E} (path : string) (content : list Z) : M E unit :=
  fun w => (inr tt, World (plt_calls w) (<[path := content]> (files w)) (stdout w) (ext w)).

Definition read_file {E} (path : string) : M E (list Z) :=
  fun w =>
    match files w !! path with
    | Some content => (inr content, w)
    | None => (inl (Exn OSError "No such file or directory"), w)
    end.

(** [a[:n]] along the first axis. *)
Definition first_rows {A} (n : nat) (a : ndarray A) : ndarray A :=
  match shape a with
  | [] => a
  | rows :: rest =>
      NdArray (Nat.min n rows :: rest) (take (Nat.min n rows * prod_shape rest) (data a))
  end.

(** ** The cells *)

Section Cells.
Context {E : Type} (L : Libraries E).
Local Open Scope notebook_scope.

Definition n_vis_samples : nat := 1000.

(** Random projection. *)
Definition cell_random_projection (X_vis : matrix) (y_vis : list Z) : M E points :=
  print "Computing random projection" ;;;
  t0 <- now L ;;
  X_projected <- call (SparseRandomProjection_fit_transform L 2 42 X_vis) ;;
  t1 <- now L ;;
  plot_digits_embedding X_projected y_vis
    (Some ("Random Projection of the digits (time " +:+ format_2f L (t1 - t0)%Q +:+ "s)"))
    true ;;;
  mret X_projected.

(** PCA. *)
Definition cell_pca (X_vis : matrix) (y_vis : list Z) : M E points :=
  print "Computing PCA projection" ;;;
  t0 <- now L ;;
  X_pca <- call (PCA_fit_transform L 2 "auto" X_vis) ;;
  t1 <- now L ;;
  plot_digits_embedding X_pca y_vis
    (Some ("Principal Components projection of the digits (time "
           +:+ format_2f L (t1 - t0)%Q +:+ "s)"))
    false ;;;
  mret X_pca.

(** MDS, fitted on the first 3000 samples of [X]. *)
Definition cell_mds (X : matrix) (y_vis : list Z) : M E points :=
  print "Computing MDS embedding" ;;;
  t0 <- now L ;;
  fitted <- call (MDS_fit_transform L 2 1 100 (take 3000 X)) ;;
  let X_mds := fitted.1 in
  print ("Done. Stress: " +:+ format_f L fitted.2) ;;;
  t1 <- now L ;;
  plot_digits_embedding (take n_vis_samples X_mds) y_vis
    (Some ("MDS embedding of the digits (time " +:+ format_2f L (t1 - t0)%Q +:+ "s)"))
    true ;;;
  mret X_mds.

(** t-SNE. *)
Definition cell_tsne (X_vis : matrix) (y_vis : list Z) : M E points :=
  t0 <- now L ;;
  X_tsne <- call (TSNE_fit_transform L 2 "random" 42 X_vis) ;;
  t1 <- now L ;;
  plot_digits_embedding X_tsne y_vis
    (Some ("t-SNE embedding of the digits (time " +:+ format_2f L (t1 - t0)%Q +:+ "s)"))
    true ;;;
  mret X_tsne.


(** The cell that imports tensorflow: first the guarded magic, then the
    import with its version check. *)
Definition import_tensorflow_checked : M E string :=
  tf_version <- call (import_tensorflow L) ;;
  (if String.leb "2.0" tf_version then mret tt else mraise AssertionError "") ;;;
  call (import_keras L) ;;;
  mret tf_version.

Definition cell_import_tensorflow : M E string :=
  try_except_Exception (call (magic_tensorflow_version L "2.x")) (mret tt) ;;;
  import_tensorflow_checked.

Definition class_names : list string :=
  [ "T-shirt/top"; "Trouser"; "Pullover"; "Dress"; "Coat";
    "Sandal"; "Shirt"; "Sneaker"; "Bag"; "Ankle boot" ].

(** The cell that shows the first training image. *)
Definition cell_first_image (X_train : list (ndarray Q)) (y_train : list Z) : M E unit :=
  img <- lift (py_index X_train 0) ;;
  label <- lift (py_index y_train 0) ;;
  title <- lift (py_index class_names label) ;;
  plot_image img None "binary" None (Some title) ;;;
  mret tt.

(** The cell that shows a grid of training images. *)
Definition cell_image_grid (X_train : list (ndarray Q)) (y_train : list Z) : M E unit :=
  let n_rows := 5 in
  let n_cols := 20 in
  plt_do (Figure (inject_Z n_cols * (12 # 10), inject_Z n_rows * (12 # 10))%Q) ;;;
  for_each (seqZ 0 n_rows) (fun row =>
    for_each (seqZ 0 n_cols) (fun col =>
      let index := n_cols * row + col in
      ax <- plt_subplot n_rows n_cols (index + 1) ;;
      img <- lift (py_index X_train index) ;;
      label <- lift (py_index y_train index) ;;
      title <- lift (py_index class_names label) ;;
      plot_image img None "binary" (Some ax) (Some title) ;;;
      mret tt)) ;;;
  plt_do (SubplotsAdjust (2 # 10) (5 # 10)) ;;;
  plt_do Show.

(** [keras.utils.plot_model(model_fc, "my_mnist_model.png", show_shapes=True)] *)
Definition cell_plot_model (model_fc : Model L) : M E unit :=
  png <- call (model_to_png L model_fc true) ;;
  write_file "my_mnist_model.png" png.

(** [keras.models.load_model(path)] and [model.save(path)] *)
Definition load_model (path : string) : M E (Model L) :=
  content <- read_file path ;;
  call (model_of_h5 L content).

Definition model_save (model : Model L) (path : string) : M E unit :=
  write_file path (model_to_h5 L model).

Definition convmodel_file : string := "convnet.h5".

(** The cell that loads the convolutional network from [convnet.h5] when
    the file exists and assembles it otherwise; it leaves the variables
    [model] and [trained]. *)
Definition cell_convnet : M E (Model L * bool) :=
  present <- os_path_exists convmodel_file ;;
  if present then
    model <- load_model convmodel_file ;;
    mret (model, true)
  else
    let DefaultConv2D filters kernel_size input_shape :=
      Conv2D filters kernel_size "relu" "SAME" input_shape in
    feature_extractor <- call (Sequential L
      [ DefaultConv2D 64 7 (Some [28; 28; 1]);
        MaxPooling2D 2;
        DefaultConv2D 128 3 None;
        DefaultConv2D 128 3 None;
        MaxPooling2D 2;
        DefaultConv2D 256 3 None;
        DefaultConv2D 256 3 None;
        MaxPooling2D 2;
        Flatten ]) ;;
    classifier <- call (Sequential L
      [ Dense 128 "selu"; Dropout (5 # 10);
        Dense 64 "selu"; Dropout (5 # 10);
        Dense 10 "softmax" ]) ;;
    model <- call (Sequential_of_models L [feature_extractor; classifier]) ;;
    mret (model, false).

(** The cell that trains the network unless it was loaded, and saves it. *)
Definition cell_train_convnet (model : Model L) (trained : bool)
    (X_train_c : ndarray Q) (y_train : list Z) (X_valid_c : ndarray Q) (y_valid : list Z)
    (X_test_c : ndarray Q) (y_test : list Z) : M E (Model L * list Q * ndarray Q) :=
  model <-
    (if negb trained then
       model <- call (model_compile L model "sparse_categorical_crossentropy" "nadam"
                        ["accuracy"]) ;;
       fitted <- call (model_fit L model (first_rows (Z.to_nat 10000) X_train_c)
                         (take (Z.to_nat 10000) y_train)
                         10 (X_valid_c, y_valid)) ;;
       model_save fitted.1 convmodel_file ;;;
       mret fitted.1
     else mret model) ;;
  score <- call (model_evaluate L model X_test_c y_test) ;;
  let X_new := first_rows 10 X_test_c in
  y_pred <- call (model_predict L model X_new) ;;
  mret (model, score, y_pred).

End Cells.

(** ** Predicates on computations *)

(** [m] only adds [pyplot] calls that satisfy [P], and returns values that
    satisfy [R]. *)
Definition plots {E A} (P : plt_call -> Prop) (R : A -> Prop) (m : M E A) : Prop :=
  forall w, exists calls,
    plt_calls (m w).2 = plt_calls w ++ calls /\ Forall P calls /\
    forall a, (m w).1 = inr a -> R a.


(** ** Determinism of the helpers *)





(** ** An implementation of the libraries, to run the cells on examples *)

(** Outside Colab the magic [%tensorflow_version] does not exist and raises a
    [UsageError]; models are lists of weights, stored as they are. *)
Definition sample_libraries (in_colab : bool) : Libraries unit := {|
  time e := (0%Q, e);
  format_2f _ := "0.00";
  format_f _ := "0.000000";
  SparseRandomProjection_fit_transform _ _ X e :=
    (inr (map (fun row => (nth 0 row 0, nth 1 row 0)%Q) X), e);
  PCA_fit_transform _ _ X e :=
    (inr (map (fun row => (nth 0 row 0, nth 1 row 0)%Q) X), e);
  MDS_fit_transform _ _ _ X e :=
    (inr (map (fun row => (nth 0 row 0, nth 1 row 0)%Q) X, 0%Q), e);
  TSNE_fit_transform _ _ _ X e :=
    (inr (map (fun row => (nth 0 row 0, nth 1 row 0)%Q) X), e);
  import_umap e := (inr tt, e);
  UMAP_model := unit;
  UMAP_fit _ _ _ _ e := (inr tt, e);
  UMAP_transform _ X e :=
    (inr (map (fun row => (nth 0 row 0, nth 1 row 0)%Q) X), e);
  magic_tensorflow_version _ e :=
    if in_colab then (inr tt, e)
    else (inl (Exn UsageError "Line magic function `%tensorflow_version` not found."), e);
  import_tensorflow e := (inr "2.4.1", e);
  import_keras e := (inr tt, e);
  Model := list Z;
  History := unit;
  Sequential layers e := (inr [Z.of_nat (length layers)], e);
  Sequential_of_models models e := (inr (concat models), e);
  model_compile model _ _ _ e := (inr model, e);
  model_fit model _ _ epochs _ e := (inr (map (Z.add epochs) model, tt), e);
  model_evaluate _ _ _ e := (inr [0%Q; 1%Q], e);
  model_predict _ X e := (inr X, e);
  model_to_png model _ e := (inr (137 :: 80 :: 78 :: 71 :: model), e);
  model_to_h5 model := model;
  model_of_h5 content e := (inr content, e)
|}.

(** The libraries [L] with another PCA, or another tensorflow. *)
Definition with_PCA {E} (L : Libraries E)
    (pca : Z -> string -> matrix -> E -> result points * E) : Libraries E := {|
  time := time L;
  format_2f := format_2f L;
  format_f := format_f L;
  SparseRandomProjection_fit_transform := SparseRandomProjection_fit_transform L;
  PCA_fit_transform := pca;
  MDS_fit_transform := MDS_fit_transform L;
  TSNE_fit_transform := TSNE_fit_transform L;
  import_umap := import_umap L;
  UMAP_model := UMAP_model L;
  UMAP_fit := UMAP_fit L;
  UMAP_transform := UMAP_transform L;
  magic_tensorflow_version := magic_tensorflow_version L;
  import_tensorflow := import_tensorflow L;
  import_keras := import_keras L;
  Model := Model L;
  History := History L;
  Sequential := Sequential L;
  Sequential_of_models := Sequential_of_models L;
  model_compile := model_compile L;
  model_fit := model_fit L;
  model_evaluate := model_evaluate L;
  model_predict := model_predict L;
  model_to_png := model_to_png L;
  model_to_h5 := model_to_h5 L;
  model_of_h5 := model_of_h5 L
|}.

Definition with_tensorflow {E} (L : Libraries E)
    (import : E -> result string * E) : Libraries E := {|
  time := time L;
  format_2f := format_2f L;
  format_f := format_f L;
  SparseRandomProjection_fit_transform := SparseRandomProjection_fit_transform L;
  PCA_fit_transform := PCA_fit_transform L;
  MDS_fit_transform := MDS_fit_transform L;
  TSNE_fit_transform := TSNE_fit_transform L;
  import_umap := import_umap L;
  UMAP_model := UMAP_model L;
  UMAP_fit := UMAP_fit L;
  UMAP_transform := UMAP_transform L;
  magic_tensorflow_version := magic_tensorflow_version L;
  import_tensorflow := import;
  import_keras := import_keras L;
  Model := Model L;
  History := History L;
  Sequential := Sequential L;
  Sequential_of_models := Sequential_of_models L;
  model_compile := model_compile L;
  model_fit := model_fit L;
  model_evaluate := model_evaluate L;
  model_predict := model_predict L;
  model_to_png := model_to_png L;
  model_to_h5 := model_to_h5 L;
  model_of_h5 := model_of_h5 L
|}.

Definition empty_world : world unit := World [] ∅ [] tt.

Definition sample_images : ndarray Q := NdArray [2; 1; 1]%nat [0; 1]%Q.

(** ** The interactive embedding *)


(** ["%x" % n] for a natural number [n], and ["%02x" % n]. *)
Definition hex_digit (d : Z) : Ascii.ascii :=
  nth (Z.to_nat d)
      (String.list_ascii_of_string "0123456789abcdef") Ascii.zero.

Fixpoint hex_go (fuel : nat) (n : Z) (acc : string) : string :=
  match fuel with
  | O => acc
  | S fuel' =>
      let acc' := String (hex_digit (n `mod` 16)) acc in
      if decide (n `div` 16 = 0) then acc' else hex_go fuel' (n `div` 16) acc'
  end.

Definition hex (n : Z) : string := hex_go (S (Z.to_nat (Z.log2 n))) n "".

Definition format_02x (n : Z) : string :=
  if decide (n < 0) then "-" +:+ hex (- n)
  else if decide (n < 16) then "0" +:+ hex n
  else hex n.

(** ["#%02x%02x%02x" % (int(r), int(g), int(b))] for a row [r, g, b, _] of
    [255 * mpl.cm.tab10(y)]. *)
Definition color_code (label : Z) : string :=
  match map (fun c => to_int (255 * c)%Q) (tab10 (F:=Q) label) with
  | [r; g; b; _] => "#" +:+ format_02x r +:+ format_02x g +:+ format_02x b
  | _ => ""
  end.







(** The colour codes of the [tab10] palette. *)
Definition tab10_codes : list string :=
  [ "#1f77b4"; "#ff7f0e"; "#2ca02c"; "#d62728"; "#9467bd";
    "#8c564b"; "#e377c2"; "#7f7f7f"; "#bcbd22"; "#17becf" ].

(** ** The cells that prepare Fashion-MNIST *)

(** [a[n:]] along the first axis. *)
Definition rows_from {A} (n : nat) (a : ndarray A) : ndarray A :=
  match shape a with
  | [] => a
  | rows :: rest =>
      NdArray ((rows - n)%nat :: rest) (drop (Nat.min n rows * prod_shape rest) (data a))
  end.

(** [a / 255.] on an array of bytes. *)
Definition divide_255 (a : ndarray Z) : ndarray Q :=
  NdArray (shape a) (map (fun b => (inject_Z b / 255)%Q) (data a)).

(** The cell that splits the training set and scales the pixels; it leaves
    [X_valid], [X_train], [y_valid], [y_train] and the scaled [X_test]. *)
Definition cell_split (X_train_full : ndarray Z) (y_train_full : list Z)
    (X_test : ndarray Z)
  : ndarray Q * ndarray Q * list Z * list Z * ndarray Q :=
  let X_valid := divide_255 (first_rows (Z.to_nat 5000) X_train_full) in
  let X_train := divide_255 (rows_from (Z.to_nat 5000) X_train_full) in
  let y_valid := take (Z.to_nat 5000) y_train_full in
  let y_train := drop (Z.to_nat 5000) y_train_full in
  let X_test := divide_255 X_test in
  (X_valid, X_train, y_valid, y_train, X_test).

(** The cell that takes the first 1000 test images as vectors; it leaves
    [X_vis], [y_vis] and [X_in]. *)
Definition cell_input_space (X_test : ndarray Q) (y_test : list Z)
  : result (ndarray Q * list Z * ndarray Q) :=
  (let n_vis_samples := Z.to_nat 1000 in
   let X_vis := first_rows n_vis_samples X_test in
   let y_vis := take n_vis_samples y_test in
   X_in <- reshape [n_vis_samples; (28 * 28)%nat] X_vis ;;
   ok (X_vis, y_vis, X_in))%result.

(** ** What [plot_digits_embedding] draws *)

(** The [plt.text] call for a rescaled point and its label. *)
Definition text_call (p : npfloat * npfloat) (yi : Z) : plt_call :=
  Text p.1 p.2 (pretty yi) (tab10 yi) "bold" 9.

(** The calls after the loop: the ticks, then the title. *)
Definition closing_calls (title : option string) (remove_ticks : bool) : list plt_call :=
  (if remove_ticks then [Xticks []; Yticks []] else []) ++
  match title with Some t => [Title t] | None => [] end.

Definition is_text (c : plt_call) : bool :=
  match c with Text _ _ _ _ _ _ => true | _ => false end.


(** The world after some more calls to [pyplot]. *)
Definition add_calls {E} (w : world E) (calls : list plt_call) : world E :=
  World (plt_calls w ++ calls) (files w) (stdout w) (ext w).

(** [m] adds at most [n] calls to [plt.text]. *)
Definition draws_at_most {E A} (n : nat) (m : M E A) : Prop :=
  forall w, exists calls,
    plt_calls (m w).2 = plt_calls w ++ calls /\
    (length (filter (fun c => is_text c = true) calls) <= n)%nat.

(** ** The pixels of [im_colorize_rgba] *)

(** One channel of a coloured pixel, as the byte [astype(np.uint8)] keeps, and
    the four channels of a pixel [x] as one 32-bit word. *)
Definition channel_byte `{Scalar F} (x c : F) : Z :=
  to_int (smul (smul x c) (of_Z 255)) `mod` 256.

Definition rgba_word `{Scalar F} (label : Z) (x : F) : Z :=
  match tab10 label with
  | [r; g; b; a] =>
      pack_uint32 (channel_byte x r) (channel_byte x g) (channel_byte x b)
                  (channel_byte x a)
  | _ => 0
  end.

(** * Properties *)

Section ArrayLemmas.
Context {A : Type}.
Implicit Types (l : list A) (k n i j : nat).

Lemma chunks_length k n l : length (chunks k n l) = k.
Proof. revert l; induction k as [|k IH]; intros l; simpl; [done|by rewrite IH]. Qed.

Lemma chunks_lookup k n l i :
  (i < k)%nat -> chunks k n l !! i = Some (take n (drop (i * n) l)).
Proof.
  revert l i; induction k as [|k IH]; intros l i Hi; [lia|].
  destruct i as [|i]; simpl; [done|].
  rewrite IH by lia. by rewrite drop_drop.
Qed.

Lemma chunks_uniform k n l :
  length l = (k * n)%nat -> Forall (fun c => length c = n) (chunks k n l).
Proof.
  revert l; induction k as [|k IH]; intros l Hl; simpl; constructor.
  - rewrite length_take. lia.
  - apply IH. rewrite length_drop. lia.
Qed.

Lemma concat_uniform_lookup (ls : list (list A)) n i j :
  Forall (fun c => length c = n) ls -> (j < n)%nat ->
  concat ls !! (i * n + j)%nat = ls !! i ≫= (.!! j).
Proof.
  intros Hall Hj. revert i.
  induction Hall as [|c ls Hc _ IH]; intros i; [done|].
  destruct i as [|i]; simpl.
  - apply lookup_app_l. lia.
  - rewrite lookup_app_r by lia.
    replace (n + i * n + j - length c)%nat with (i * n + j)%nat by lia.
    apply IH.
Qed.

(** Reading the blocks of [l] in reverse order. *)
Lemma flipped_lookup k n l i j :
  length l = (k * n)%nat -> (i < k)%nat -> (j < n)%nat ->
  concat (reverse (chunks k n l)) !! (i * n + j)%nat
  = l !! ((k - 1 - i) * n + j)%nat.
Proof.
  intros Hl Hi Hj.
  rewrite (concat_uniform_lookup _ n).
  - rewrite reverse_lookup by (rewrite chunks_length; lia).
    rewrite chunks_length, chunks_lookup by lia. simpl.
    rewrite lookup_take_lt by lia. rewrite lookup_drop.
    f_equal. lia.
  - apply Forall_reverse. by apply chunks_uniform.
  - done.
Qed.

Lemma concat_uniform_length (ls : list (list A)) n :
  Forall (fun c => length c = n) ls -> length (concat ls) = (length ls * n)%nat.
Proof.
  induction 1 as [|c ls Hc _ IH]; [done|].
  simpl. rewrite length_app, IH, Hc. lia.
Qed.

Lemma flipped_length k n l :
  length l = (k * n)%nat -> length (concat (reverse (chunks k n l))) = (k * n)%nat.
Proof.
  intros Hl. rewrite (concat_uniform_length _ n).
  - by rewrite length_reverse, chunks_length.
  - apply Forall_reverse. by apply chunks_uniform.
Qed.

Lemma flipud_ok (a : ndarray A) :
  shape a <> [] ->
  flipud a
  = inr (NdArray (shape a)
           (concat (reverse (chunks (hd 0%nat (shape a))
                                    (prod_shape (tail (shape a))) (data a))))).
Proof. unfold flipud. by destruct (shape a). Qed.
End ArrayLemmas.

Section WordLemmas.

Lemma byte_bits b l : 0 <= b < 256 -> 8 <= l -> Z.testbit b l = false.
Proof.
  intros Hb Hl.
  apply (proj1 (Z.bounded_iff_bits_nonneg 8 b ltac:(lia) ltac:(lia)));
    [change (2 ^ 8) with 256|]; lia.
Qed.

Lemma pack_uint32_bound b0 b1 b2 b3 :
  0 <= b0 < 256 -> 0 <= b1 < 256 -> 0 <= b2 < 256 -> 0 <= b3 < 256 ->
  0 <= pack_uint32 b0 b1 b2 b3 < 2 ^ 32.
Proof.
  intros H0 H1 H2 H3.
  assert (Hnn : 0 <= pack_uint32 b0 b1 b2 b3).
  { unfold pack_uint32. rewrite !Z.lor_nonneg, !Z.shiftl_nonneg. lia. }
  apply Z.bounded_iff_bits_nonneg'; [lia|exact Hnn|].
  intros l Hl. unfold pack_uint32.
  rewrite !Z.lor_spec, !Z.shiftl_spec by lia.
  rewrite !byte_bits by lia. reflexivity.
Qed.

Lemma pack_words_length n (l : list Z) :
  length l = (4 * n)%nat -> length (pack_words l) = n.
Proof.
  revert l; induction n as [|n IH]; intros l Hl.
  - by destruct l.
  - destruct l as [|b0 [|b1 [|b2 [|b3 rest]]]]; simpl in Hl; try lia.
    simpl. f_equal. apply IH. lia.
Qed.

Lemma pack_words_bound n (l : list Z) :
  length l = (4 * n)%nat ->
  Forall (fun b => 0 <= b < 256) l ->
  Forall (fun v => 0 <= v < 2 ^ 32) (pack_words l).
Proof.
  revert l; induction n as [|n IH]; intros l Hl Hall.
  - by destruct l.
  - destruct l as [|b0 [|b1 [|b2 [|b3 rest]]]]; simpl in Hl; try lia.
    apply Forall_cons in Hall as [H0 Hall]. apply Forall_cons in Hall as [H1 Hall].
    apply Forall_cons in Hall as [H2 Hall]. apply Forall_cons in Hall as [H3 Hall].
    simpl. constructor; [by apply pack_uint32_bound|]. apply IH; [lia|done].
Qed.

End WordLemmas.

Section ImageHelperProperties.
Context `{Scalar F}.

Lemma reshape_ok (s : list nat) (a : ndarray F) :
  prod_shape s = size a -> reshape s a = inr (NdArray s (data a)).
Proof. intros Hs. unfold reshape. by rewrite decide_True. Qed.

Lemma reshape_fails (s : list nat) (a : ndarray F) :
  prod_shape s <> size a -> raises ValueError (reshape s a).
Proof. intros Hs. unfold reshape. rewrite decide_False by done. by eexists. Qed.

(** C10.  For every array of 784 elements, [im_reshape_bw] returns a 28x28
    array, the vertical flip of the 28x28 reshape of the elements scaled by
    255: the entry at row [i], column [j] is element [28 * (27 - i) + j] of
    the input (in row-major order) multiplied by 255. *)
Theorem im_reshape_bw_flip (arr : ndarray F) :
  size arr = 784%nat ->
  exists out,
    im_reshape_bw arr = inr out /\
    shape out = [28; 28]%nat /\
    forall i j : nat, (i < 28)%nat -> (j < 28)%nat ->
      get2 out i j
      = (fun x => smul x (of_Z 255)) <$> data arr !! (28 * (27 - i) + j)%nat.
Proof.
  intros Hsize. unfold im_reshape_bw.
  rewrite reshape_ok by (rewrite Hsize; reflexivity).
  eexists. split; [reflexivity|]. split; [reflexivity|].
  intros i j Hi Hj. unfold get2. cbn [shape data mul_scalar].
  rewrite decide_True by lia.
  change (i * 28)%nat with (i * prod_shape [28%nat])%nat.
  rewrite flipped_lookup;
    [|rewrite length_map; exact Hsize|simpl; lia|simpl; lia].
  rewrite list_lookup_fmap. do 2 f_equal. simpl. lia.
Qed.

Lemma tab10_length (label : Z) : length (tab10 (F:=F) label) = 4%nat.
Proof. unfold tab10. by destruct (nth _ tab10_rgb _) as [[r g] b]. Qed.

Lemma mul_vector_size (a : ndarray F) (v : list F) :
  size (mul_vector a v) = (size a * length v)%nat.
Proof.
  unfold size, mul_vector; simpl.
  induction (data a) as [|x d IH]; [done|].
  simpl. rewrite length_app, length_map, IH. lia.
Qed.

(** The common end of [im_colorize_rgba], on an image whose last axis holds
    the four colour channels. *)
Lemma colorize_tail (x : ndarray F) (s : list nat) :
  shape x = s ++ [4%nat] ->
  rbind (flipud x) (fun out_img => view_uint32 (squeeze (astype_uint8 out_img)))
  = inr (NdArray (filter (fun d => d <> 1%nat) s ++ [1%nat])
           (pack_words
              (map (fun v => to_int v mod 256)
                 (concat (reverse (chunks (hd 0%nat (shape x))
                                          (prod_shape (tail (shape x))) (data x))))))).
Proof.
  intros Hx. rewrite flipud_ok by (rewrite Hx; by destruct s).
  cbn [rbind]. unfold view_uint32, squeeze, astype_uint8. cbn [shape data].
  rewrite Hx, filter_app.
  replace (filter (fun d => d <> 1%nat) [4%nat]) with [4%nat] by reflexivity.
  destruct (filter (fun d => d <> 1%nat) s ++ [4%nat]) as [|d0 l0] eqn:Hs;
    [by destruct (filter _ s)|].
  rewrite <- Hs, List.last_last, removelast_last. reflexivity.
Qed.

Lemma im_colorize_rgba_vector (arr : ndarray F) (label : Z) :
  ndim arr = 1%nat -> size arr = 784%nat ->
  exists out,
    im_colorize_rgba arr label = inr out /\
    shape out = [28; 28; 1]%nat /\
    length (data out) = 784%nat /\
    Forall (fun v => 0 <= v < 2 ^ 32) (data out).
Proof.
  intros Hdim Hsize. unfold im_colorize_rgba.
  rewrite decide_True by done.
  rewrite reshape_ok
    by (rewrite mul_vector_size, tab10_length;
        change (size (newaxis_last arr)) with (size arr);
        rewrite Hsize; reflexivity).
  cbn [rbind ok]. rewrite (colorize_tail _ [28; 28]%nat) by reflexivity.
  eexists. split; [reflexivity|]. split; [reflexivity|].
  cbn [data shape mul_scalar mul_vector newaxis_last hd tail].
  assert (Hlen : length
    (map (fun v : F => to_int v mod 256)
       (concat (reverse (chunks 28 (prod_shape [28; 4]%nat)
          (map (fun x : F => smul x (of_Z 255))
             (flat_map (fun x : F => map (smul x) (tab10 label)) (data arr)))))))
    = (4 * 784)%nat).
  { rewrite length_map, flipped_length; [reflexivity|].
    rewrite length_map. pose proof (mul_vector_size arr (tab10 label)) as Hm.
    unfold size, mul_vector in Hm; simpl in Hm. rewrite Hm, tab10_length.
    unfold size in Hsize. rewrite Hsize. reflexivity. }
  split.
  - by apply pack_words_length.
  - apply (pack_words_bound 784); [exact Hlen|].
    apply Forall_fmap, Forall_forall. intros v _. simpl.
    apply Z.mod_pos_bound. lia.
Qed.

Lemma im_colorize_rgba_matrix (arr : ndarray F) (label : Z) :
  ndim arr = 2%nat -> exists out, im_colorize_rgba arr label = inr out.
Proof.
  intros Hdim. unfold im_colorize_rgba.
  rewrite decide_False by lia. rewrite decide_True by done.
  cbn [rbind ok].
  rewrite (colorize_tail _ (shape arr)); [by eexists|].
  unfold mul_scalar, mul_vector, newaxis_last. cbn [shape].
  by rewrite removelast_last, tab10_length.
Qed.

(** C9, as the code has it.  [im_colorize_rgba] raises [ValueError] exactly
    when the array has a number of dimensions other than 1 or 2, or has
    one dimension and a number of elements other than 784 (the reshape to
    (28, 28, 4) fails); a 1-dimensional input of 784 elements gives, without
    raising, 28 rows of 28 pixels, each one value of 32 bits. *)
Theorem im_colorize_rgba_raises (arr : ndarray F) (label : Z) :
  (raises ValueError (im_colorize_rgba arr label) <->
     (ndim arr <> 1%nat /\ ndim arr <> 2%nat) \/
     (ndim arr = 1%nat /\ size arr <> 784%nat)) /\
  (ndim arr = 1%nat -> size arr = 784%nat ->
   exists out,
     im_colorize_rgba arr label = inr out /\
     take 2 (shape out) = [28; 28]%nat /\
     length (data out) = 784%nat /\
     Forall (fun v => 0 <= v < 2 ^ 32) (data out)).
Proof.
  split.
  - destruct (decide (ndim arr = 1%nat)) as [H1|H1].
    + destruct (decide (size arr = 784%nat)) as [Hs|Hs].
      * destruct (im_colorize_rgba_vector arr label H1 Hs) as (out & -> & _).
        split; [intros [msg [=]]|intros [[? _]|[_ ?]]; done].
      * split; [intros _; by right|intros _].
        unfold im_colorize_rgba. rewrite decide_True by done.
        destruct (reshape_fails [28; 28; 4]%nat
                    (mul_vector (newaxis_last arr) (tab10 label))) as [msg ->].
        { rewrite mul_vector_size, tab10_length.
          change (size (newaxis_last arr)) with (size arr). simpl. lia. }
        by eexists.
    + destruct (decide (ndim arr = 2%nat)) as [H2|H2].
      * destruct (im_colorize_rgba_matrix arr label H2) as (out & ->).
        split; [intros [msg [=]]|intros [[_ ?]|[? _]]; done].
      * split; [intros _; by left|intros _].
        unfold im_colorize_rgba. rewrite !decide_False by done. by eexists.
  - intros H1 Hs.
    destruct (im_colorize_rgba_vector arr label H1 Hs) as (out & -> & Hsh & Hlen & Hw).
    exists out. rewrite Hsh. done.
Qed.
End ImageHelperProperties.

Lemma im_reshape_bw_flip_witness :
  size (NdArray [784%nat] (seqZ 0 784)) = 784%nat /\
  exists out,
    im_reshape_bw (NdArray [784%nat] (seqZ 0 784)) = inr out /\
    shape out = [28; 28]%nat /\
    forall i j : nat, (i < 28)%nat -> (j < 28)%nat ->
      get2 out i j
      = (fun x => x * 255) <$> seqZ 0 784 !! (28 * (27 - i) + j)%nat.
Proof.
  split; [reflexivity|].
  exact (im_reshape_bw_flip (NdArray [784%nat] (seqZ 0 784)) eq_refl).
Defined.

(** A white image of class 0: every pixel is the first colour of [tab10],
    fully opaque, and the result keeps a last axis of length 1. *)
Example im_colorize_rgba_white :
  im_colorize_rgba (NdArray [784%nat] (replicate 784 (1:Q))) 0
  = inr (NdArray [28; 28; 1]%nat (replicate 784 (pack_uint32 31 119 180 255))).
Proof. vm_compute. reflexivity. Qed.

(** Rows come out bottom-up: the first output row is the last input row. *)
Example im_reshape_bw_first_row :
  rbind (im_reshape_bw (NdArray [784%nat] (seqZ 0 784)))
        (fun out => ok (take 3 (data out)))
  = inr [756 * 255; 757 * 255; 758 * 255].
Proof. vm_compute. reflexivity. Qed.

(** A vector of five elements has one dimension, and [im_colorize_rgba]
    raises [ValueError] on it: the equivalence of C9 with "a number of
    dimensions other than 1 or 2" alone does not hold. *)
Lemma im_colorize_rgba_short_vector :
  ~ (raises ValueError (im_colorize_rgba (NdArray [5%nat] (replicate 5 (0:Q))) 3)
     <-> (ndim (NdArray [5%nat] (replicate 5 (0:Q))) <> 1%nat /\
          ndim (NdArray [5%nat] (replicate 5 (0:Q))) <> 2%nat)).
Proof.
  intros [Hraise _].
  destruct Hraise as [Hdim _]; [|by apply Hdim].
  by exists "cannot reshape array".
Qed.

Lemma im_colorize_rgba_raises_witness :
  exists out,
    im_colorize_rgba (NdArray [784%nat] (replicate 784 (1:Q))) 3 = inr out /\
    take 2 (shape out) = [28; 28]%nat /\
    length (data out) = 784%nat /\
    Forall (fun v => 0 <= v < 2 ^ 32) (data out).
Proof.
  exact (proj2 (im_colorize_rgba_raises (NdArray [784%nat] (replicate 784 (1:Q))) 3)
               eq_refl eq_refl).
Defined.

(** ** A small logic for the calls a computation makes to [pyplot] *)

Section PltLogic.
Context {E : Type}.





Lemma plots_weaken {A} P (R R' : A -> Prop) (m : M E A) :
  (forall a, R a -> R' a) -> plots P R m -> plots P R' m.
Proof.
  intros HR Hm w. destruct (Hm w) as (c & ? & ? & Hr).
  exists c. repeat split; [done..|]. intros a Ha. by apply HR, Hr.
Qed.

End PltLogic.

(** ** Rescaling to the unit square *)

Section Rescaling.
Local Open Scope Q_scope.








End Rescaling.


Section PlotDigitsEmbedding.
Context {E : Type}.
Local Open Scope Q_scope.







End PlotDigitsEmbedding.

(** ** Running the notebook monad *)

Section MonadLemmas.
Context {E : Type}.

Lemma mbind_raise {A B} (m : M E A) (k : A -> M E B) w e w' :
  m w = (inl e, w') -> mbind m k w = (inl e, w').
Proof. intros Hm. unfold mbind. by rewrite Hm. Qed.

Lemma mbind_ok {A B} (m : M E A) (k : A -> M E B) w a w' :
  m w = (inr a, w') -> mbind m k w = k a w'.
Proof. intros Hm. unfold mbind. by rewrite Hm. Qed.


Lemma for_each_raise {A} (x : A) (l : list A) (body : A -> M E unit) w e w' :
  body x w = (inl e, w') -> for_each (x :: l) body w = (inl e, w').
Proof. intros Hb. simpl. by apply mbind_raise. Qed.

Lemma call_run {A} (f : E -> result A * E) (w : world E) :
  call f w = ((f (ext w)).1, World (plt_calls w) (files w) (stdout w) (f (ext w)).2).
Proof. unfold call. by destruct (f (ext w)). Qed.

Lemma now_run (L : Libraries E) (w : world E) :
  now L w = (inr (time L (ext w)).1,
             World (plt_calls w) (files w) (stdout w) (time L (ext w)).2).
Proof. unfold now. rewrite call_run. by destruct (time L (ext w)). Qed.
End MonadLemmas.

Lemma py_index_error {A} (l : list A) (i : Z) (e : exn) :
  py_index l i = inl e -> e = Exn IndexError "index out of range".
Proof.
  unfold py_index. case_decide; [|by intros [= <-]].
  destruct (l !! _); by intros [= <-].
Qed.

(** ** The placeholder [plot_image] *)

Section PlotImage.
Context {E : Type}.

Lemma plot_image_raises `{Scalar F} (img : ndarray F) reshape_size cmap ax title
    (w : world E) :
  plot_image img reshape_size cmap ax title w
  = (inl (Exn NotImplementedError "TODO"), w).
Proof. reflexivity. Qed.

Lemma first_image_raises (X_train : list (ndarray Q)) (y_train : list Z) (w : world E) :
  (cell_first_image X_train y_train w).1 = inl (Exn NotImplementedError "TODO") \/
  (cell_first_image X_train y_train w).1 = inl (Exn IndexError "index out of range").
Proof.
  unfold cell_first_image, mbind, lift.
  destruct (py_index X_train 0) as [e|img] eqn:H1;
    [right; simpl; f_equal; by eapply py_index_error|].
  destruct (py_index y_train 0) as [e|label] eqn:H2;
    [right; simpl; f_equal; by eapply py_index_error|].
  destruct (py_index class_names label) as [e|title] eqn:H3;
    [right; simpl; f_equal; by eapply py_index_error|].
  by left.
Qed.

Lemma image_grid_raises (X_train : list (ndarray Q)) (y_train : list Z) (w : world E) :
  (cell_image_grid X_train y_train w).1 = inl (Exn NotImplementedError "TODO") \/
  (cell_image_grid X_train y_train w).1 = inl (Exn IndexError "index out of range").
Proof.
  unfold cell_image_grid.
  replace (seqZ 0 5) with [0; 1; 2; 3; 4] by reflexivity.
  replace (seqZ 0 20) with (0 :: seqZ 1 19) by reflexivity.
  set (outer := for_each _ _).
  assert (Houter : forall w1, exists w2,
    outer w1 = (inl (Exn NotImplementedError "TODO"), w2) \/
    outer w1 = (inl (Exn IndexError "index out of range"), w2)).
  { intros w1. unfold outer. eexists.
    destruct (py_index X_train 0) as [e|img] eqn:H1.
    { right. apply for_each_raise. cbv beta. apply for_each_raise.
      change (20 * 0 + 0) with 0.
      unfold plt_subplot, plt_do, mret, mbind, lift.
      cbn -[py_index class_names]. rewrite H1. do 2 f_equal. by eapply py_index_error. }
    destruct (py_index y_train 0) as [e|label] eqn:H2.
    { right. apply for_each_raise. cbv beta. apply for_each_raise.
      change (20 * 0 + 0) with 0.
      unfold plt_subplot, plt_do, mret, mbind, lift.
      cbn -[py_index class_names]. rewrite H1, H2. do 2 f_equal. by eapply py_index_error. }
    destruct (py_index class_names label) as [e|title] eqn:H3.
    { right. apply for_each_raise. cbv beta. apply for_each_raise.
      change (20 * 0 + 0) with 0.
      unfold plt_subplot, plt_do, mret, mbind, lift.
      cbn -[py_index class_names]. rewrite H1, H2, H3. do 2 f_equal. by eapply py_index_error. }
    left. apply for_each_raise. cbv beta. apply for_each_raise.
      change (20 * 0 + 0) with 0.
    unfold plt_subplot, plt_do, mret, mbind, lift.
    cbn -[py_index class_names]. rewrite H1, H2, H3. reflexivity. }
  erewrite (mbind_ok (plt_do _)) by reflexivity.
  match goal with |- context [mbind outer ?k ?w1] =>
    destruct (Houter w1) as (w2 & [Ho|Ho]);
      rewrite (mbind_raise outer k _ _ _ Ho); [by left|by right]
  end.
Qed.

(** C2.  Whatever its arguments, a call to [plot_image] raises
    [NotImplementedError("TODO")] and returns no value; the world is left
    as it was.  The two cells that call it never run to their end: they
    raise this placeholder as soon as the arguments of the call are
    evaluated (an empty data set makes the evaluation itself raise
    [IndexError]). *)
Theorem plot_image_not_implemented :
  (forall (img : ndarray Q) reshape_size cmap ax title (w : world E),
      plot_image img reshape_size cmap ax title w
      = (inl (Exn NotImplementedError "TODO"), w)) /\
  (forall X_train y_train (w : world E),
      (cell_first_image X_train y_train w).1 = inl (Exn NotImplementedError "TODO") \/
      (cell_first_image X_train y_train w).1 = inl (Exn IndexError "index out of range")) /\
  (forall X_train y_train (w : world E),
      (cell_image_grid X_train y_train w).1 = inl (Exn NotImplementedError "TODO") \/
      (cell_image_grid X_train y_train w).1 = inl (Exn IndexError "index out of range")).
Proof.
  split; [|split].
  - intros. apply plot_image_raises.
  - apply first_image_raises.
  - apply image_grid_raises.
Qed.
End PlotImage.

(** ** The hashing cell *)

Lemma toarray_shape (f : FeatureHasher.csr) :
  length (FeatureHasher.toarray f) = length (FeatureHasher.csr_rows f) /\
  Forall (fun row => Z.of_nat (length row) = Z.max 0 (FeatureHasher.csr_shape f).2)
         (FeatureHasher.toarray f).
Proof.
  unfold FeatureHasher.toarray. split; [by rewrite length_map|].
  apply Forall_fmap, Forall_forall. intros row _. simpl.
  rewrite length_map, length_seqZ. lia.
Qed.

(** C6.  The code cell of the HashingTrick notebook builds a [FeatureHasher]
    with [n_features=10] and transforms the two dicts of [D]; the dense array
    [f.toarray()] has exactly 2 rows and 10 columns, whatever the hash
    function. *)
Theorem hashing_cell_shape (hash : string -> Z) :
  exists arr,
    HashingTrick_cell hash = inr arr /\
    length HashingTrick_D = 2%nat /\
    length arr = 2%nat /\
    Forall (fun row => length row = 10%nat) arr.
Proof.
  unfold HashingTrick_cell, FeatureHasher.transform, HashingTrick_D. cbn [rbind ok].
  eexists. split; [reflexivity|]. split; [reflexivity|].
  match goal with |- context [FeatureHasher.toarray ?f] =>
    destruct (toarray_shape f) as [Hrows Hcols] end.
  split; [exact Hrows|].
  eapply Forall_impl; [exact Hcols|]. intros row Hrow. simpl in Hrow. lia.
Qed.

(** With MurmurHash3 and seed 0, the hash sklearn uses, the cell shows the
    array of sklearn's documentation. *)
Lemma hashing_cell_value :
  HashingTrick_cell (fun f => Murmur.murmurhash3_bytes_s32 f 0)
  = inr [ [0; 0; -4; -1; 0; 0; 0; 0; 0; 2]; [0; 0; 0; -2; -5; 0; 0; 0; 0; 0] ].
Proof. vm_compute. reflexivity. Qed.

(** ** Determinism of the helpers *)

Section Determinism.
Context {E : Type}.







End Determinism.


(** ** The projections are the outputs of the libraries *)



Section Delegation.
Context {E : Type} (L : Libraries E).








End Delegation.

(** ** Exceptions: the one handler of the notebooks *)

Section ExceptionHandling.
Context {E : Type} (L : Libraries E).

Lemma try_except_run (w : world E) :
  let magic := magic_tensorflow_version L "2.x" (ext w) in
  let w' := World (plt_calls w) (files w) (stdout w) magic.2 in
  try_except_Exception (call (magic_tensorflow_version L "2.x")) (mret tt) w
  = match magic.1 with
    | inl e => if is_Exception e then (inr tt, w') else (inl e, w')
    | inr _ => (inr tt, w')
    end.
Proof.
  simpl. unfold try_except_Exception. rewrite call_run.
  destruct (magic_tensorflow_version L "2.x" (ext w)) as [[e|[]] e']; simpl; [|done].
  by destruct (is_Exception e).
Qed.

(** C4, as the code has it.  The cell that imports tensorflow catches every
    exception deriving from [Exception] that the magic
    [%tensorflow_version] raises, discards it and goes on with the import;
    an exception that does not derive from [Exception] leaves the cell
    unchanged.  Nothing else is caught: an exception raised by the import
    that follows, or by a library call inside the helpers ([reshape] in
    [im_reshape_bw], [np.min] in [plot_digits_embedding]), propagates
    unchanged. *)
Theorem only_the_magic_is_guarded :
  (forall w : world E,
      let magic := magic_tensorflow_version L "2.x" (ext w) in
      let w' := World (plt_calls w) (files w) (stdout w) magic.2 in
      match magic.1 with
      | inl e =>
          if is_Exception e
          then cell_import_tensorflow L w = import_tensorflow_checked L w'
          else cell_import_tensorflow L w = (inl e, w')
      | inr _ => cell_import_tensorflow L w = import_tensorflow_checked L w'
      end) /\
  (forall (w : world E) e,
      (import_tensorflow L (ext w)).1 = inl e ->
      (import_tensorflow_checked L w).1 = inl e) /\
  (forall (arr : ndarray Q) e,
      reshape [28; 28]%nat arr = inl e -> im_reshape_bw arr = inl e) /\
  (forall X2d y title remove_ticks (w : world E) e,
      np_min0 X2d = inl e ->
      plot_digits_embedding X2d y title remove_ticks w = (inl e, w)).
Proof.
  split; [|split; [|split]].
  - intros w. pose proof (try_except_run w) as Hrun. simpl in *.
    unfold cell_import_tensorflow.
    destruct (magic_tensorflow_version L "2.x" (ext w)) as [[e|[]] e']; simpl in *.
    + destruct (is_Exception e).
      * by erewrite mbind_ok.
      * by erewrite mbind_raise.
    + by erewrite mbind_ok.
  - intros w e He. unfold import_tensorflow_checked.
    erewrite mbind_raise; [reflexivity|]. rewrite call_run, He. reflexivity.
  - intros arr e He. unfold im_reshape_bw. by rewrite He.
  - intros X2d y title remove_ticks w e He. unfold plot_digits_embedding.
    apply mbind_raise. unfold lift. by rewrite He.
Qed.
End ExceptionHandling.

(** Outside Colab the magic raises [UsageError]; the cell returns normally all
    the same, so not every exception propagates (C4 without its amendment). *)
Lemma tensorflow_cell_discards_the_magic_error :
  (call (magic_tensorflow_version (sample_libraries false) "2.x") empty_world).1
  = inl (Exn UsageError "Line magic function `%tensorflow_version` not found.") /\
  cell_import_tensorflow (sample_libraries false) empty_world = (inr "2.4.1", empty_world).
Proof. split; reflexivity. Qed.

(** ** Files *)

Section Files.
Context {E : Type} (L : Libraries E).

Ltac run_cells :=
  unfold cell_plot_model, cell_convnet, cell_train_convnet, load_model, model_save,
    read_file, write_file, os_path_exists, mbind, call, mret, convmodel_file in *;
  simpl in *; repeat case_match; simplify_eq/=.

Lemma plot_model_files (model_fc : Model L) (w : world E) :
  files (cell_plot_model L model_fc w).2
  = match (model_to_png L model_fc true (ext w)).1 with
    | inr png => <["my_mnist_model.png" := png]> (files w)
    | inl _ => files w
    end.
Proof. by run_cells. Qed.

Lemma convnet_files (w : world E) : files (cell_convnet L w).2 = files w.
Proof. by run_cells. Qed.

Lemma convnet_loaded (w : world E) (model : Model L) (trained : bool) :
  (cell_convnet L w).1 = inr (model, trained) ->
  trained = bool_decide (is_Some (files w !! "convnet.h5")) /\
  (trained = true ->
   exists content,
     files w !! "convnet.h5" = Some content /\
     (model_of_h5 L content (ext w)).1 = inr model).
Proof.
  intros H. run_cells; split; try done.
  intros _. eexists. split; [done|]. by match goal with H : _ = (_, _) |- _ => rewrite H end.
Qed.

Lemma train_loaded_files (model : Model L) X_train_c y_train X_valid_c y_valid
    X_test_c y_test (w : world E) :
  files (cell_train_convnet L model true X_train_c y_train X_valid_c y_valid
           X_test_c y_test w).2
  = files w.
Proof. by run_cells. Qed.

Lemma train_saves (model : Model L) X_train_c y_train X_valid_c y_valid
    X_test_c y_test (w : world E) model' score y_pred :
  (cell_train_convnet L model false X_train_c y_train X_valid_c y_valid
     X_test_c y_test w).1 = inr (model', score, y_pred) ->
  files (cell_train_convnet L model false X_train_c y_train X_valid_c y_valid
           X_test_c y_test w).2
  = <["convnet.h5" := model_to_h5 L model']> (files w).
Proof. intros H. by run_cells. Qed.

Lemma train_other_files (model : Model L) trained X_train_c y_train X_valid_c y_valid
    X_test_c y_test (w : world E) (path : string) :
  path <> "convnet.h5" ->
  files (cell_train_convnet L model trained X_train_c y_train X_valid_c y_valid
           X_test_c y_test w).2 !! path
  = files w !! path.
Proof.
  intros Hpath. destruct trained; run_cells; by rewrite ?lookup_insert_ne.
Qed.

(** C3, as the code has it.  The notebook has no file format of its own,
    but two of its steps persist files through keras: the cell that draws
    the model writes [my_mnist_model.png]; the cells of the convolutional
    network cache it in [convnet.h5].  When that file exists the network is
    loaded from it, [trained] is true and nothing is written; when it does
    not, the network is assembled, [trained] is false, and the training
    cell saves the trained network to [convnet.h5].  No other file is
    touched. *)
Theorem files_written_by_the_cells :
  (forall (model_fc : Model L) (w : world E),
      files (cell_plot_model L model_fc w).2
      = match (model_to_png L model_fc true (ext w)).1 with
        | inr png => <["my_mnist_model.png" := png]> (files w)
        | inl _ => files w
        end) /\
  (forall w : world E, files (cell_convnet L w).2 = files w) /\
  (forall (w : world E) model trained,
      (cell_convnet L w).1 = inr (model, trained) ->
      trained = bool_decide (is_Some (files w !! "convnet.h5")) /\
      (trained = true ->
       exists content,
         files w !! "convnet.h5" = Some content /\
         (model_of_h5 L content (ext w)).1 = inr model)) /\
  (forall model X_train_c y_train X_valid_c y_valid X_test_c y_test (w : world E),
      files (cell_train_convnet L model true X_train_c y_train X_valid_c y_valid
               X_test_c y_test w).2
      = files w) /\
  (forall model X_train_c y_train X_valid_c y_valid X_test_c y_test (w : world E)
          model' score y_pred,
      (cell_train_convnet L model false X_train_c y_train X_valid_c y_valid
         X_test_c y_test w).1 = inr (model', score, y_pred) ->
      files (cell_train_convnet L model false X_train_c y_train X_valid_c y_valid
               X_test_c y_test w).2
      = <["convnet.h5" := model_to_h5 L model']> (files w)) /\
  (forall model trained X_train_c y_train X_valid_c y_valid X_test_c y_test
          (w : world E) (path : string),
      path <> "convnet.h5" ->
      files (cell_train_convnet L model trained X_train_c y_train X_valid_c y_valid
               X_test_c y_test w).2 !! path
      = files w !! path).
Proof.
  split; [apply plot_model_files|].
  split; [apply convnet_files|].
  split; [apply convnet_loaded|].
  split; [apply train_loaded_files|].
  split; [apply train_saves|apply train_other_files].
Qed.
End Files.

(** Run where no [convnet.h5] exists, the cells of the convolutional network
    write that file, and the first of them then behaves differently (it
    loads the network, [trained] is true): cells do write and read back a
    file (C3 without its amendment). *)
Lemma convnet_cells_persist_a_file :
  let L := sample_libraries true in
  let w1 := (cell_convnet L empty_world).2 in
  let train :=
    cell_train_convnet L [9; 5] false sample_images [0; 1] sample_images [0; 1]
      sample_images [0; 1] w1 in
  files empty_world !! "convnet.h5" = None /\
  (cell_convnet L empty_world).1 = inr ([9; 5], false) /\
  train.1 = inr ([19; 15], [0%Q; 1%Q], first_rows 10 sample_images) /\
  files train.2 !! "convnet.h5" = Some [19; 15] /\
  (cell_convnet L train.2).1 = inr ([19; 15], true).
Proof. vm_compute. repeat split. Qed.

(** ** The theorems at work on sample inputs *)


Lemma files_written_by_the_cells_witness :
  let L := sample_libraries true in
  let train :=
    cell_train_convnet L [9; 5] false sample_images [0; 1] sample_images [0; 1]
      sample_images [0; 1] empty_world in
  train.1 = inr ([19; 15], [0%Q; 1%Q], first_rows 10 sample_images) /\
  files train.2 = <["convnet.h5" := [19; 15]]> (files empty_world).
Proof.
  split; [reflexivity|].
  apply (proj1 (proj2 (proj2 (proj2 (proj2
           (files_written_by_the_cells (sample_libraries true))))))
           [9; 5] sample_images [0; 1] sample_images [0; 1] sample_images [0; 1]
           empty_world [19; 15] [0%Q; 1%Q] (first_rows 10 sample_images)).
  reflexivity.
Defined.

Lemma only_the_magic_is_guarded_witness :
  reshape [28; 28]%nat (NdArray [5%nat] (replicate 5 (0:Q)))
  = inl (Exn ValueError "cannot reshape array") /\
  im_reshape_bw (NdArray [5%nat] (replicate 5 (0:Q)))
  = inl (Exn ValueError "cannot reshape array").
Proof.
  split; [reflexivity|].
  apply (proj1 (proj2 (proj2 (only_the_magic_is_guarded (sample_libraries true))))).
  reflexivity.
Defined.


(** * More properties of the helpers and the cells *)

(** ** Flipping *)

Section FlipLemmas.
Context {A : Type}.
Implicit Types (l : list A) (ls : list (list A)) (k n : nat).

Lemma concat_chunks k n l : length l = (k * n)%nat -> concat (chunks k n l) = l.
Proof.
  revert l; induction k as [|k IH]; intros l Hl; simpl.
  - by destruct l.
  - rewrite IH by (rewrite length_drop; lia). apply take_drop.
Qed.

Lemma chunks_concat ls n :
  Forall (fun c => length c = n) ls -> chunks (length ls) n (concat ls) = ls.
Proof.
  induction 1 as [|c ls Hc _ IH]; [done|]. simpl.
  rewrite take_app_length' by done. rewrite drop_app_length' by done.
  by rewrite IH.
Qed.

Lemma flipped_twice k n l :
  length l = (k * n)%nat ->
  concat (reverse (chunks k n (concat (reverse (chunks k n l))))) = l.
Proof.
  intros Hl.
  rewrite <- (chunks_length k n l) at 1. rewrite <- (length_reverse (chunks k n l)).
  rewrite chunks_concat by (apply Forall_reverse; by apply chunks_uniform).
  rewrite reverse_involutive. by apply concat_chunks.
Qed.

(** [np.flipud] is an involution on arrays of at least one dimension. *)
Theorem flipud_involutive (a : ndarray A) :
  wf a -> shape a <> [] -> rbind (flipud a) flipud = inr a.
Proof.
  intros Hwf Hshape. destruct a as [sh d]. unfold wf in Hwf. simpl in *.
  destruct sh as [|rows rest]; [done|]. unfold flipud. simpl.
  f_equal. f_equal. apply flipped_twice. exact Hwf.
Qed.
End FlipLemmas.

Lemma flipud_involutive_witness :
  rbind (flipud (NdArray [2; 3]%nat [1; 2; 3; 4; 5; 6])) flipud
  = inr (NdArray [2; 3]%nat [1; 2; 3; 4; 5; 6]).
Proof.
  apply (flipud_involutive (NdArray [2; 3]%nat [1; 2; 3; 4; 5; 6])); [reflexivity|done].
Defined.

(** ** [im_reshape_bw]: failure, and independence of the input's shape *)

Section ReshapeBw.
Context `{Scalar F}.

(** X1.  [im_reshape_bw] fails exactly on arrays that do not hold 784 elements,
    and then with [ValueError]; whatever the shape, an array of 784 elements
    is accepted, and the result depends on the elements only. *)
Theorem im_reshape_bw_accepts (arr : ndarray F) :
  (raises ValueError (im_reshape_bw arr) <-> size arr <> 784%nat) /\
  (forall e, im_reshape_bw arr = inl e -> exn_class_of e = ValueError) /\
  (forall arr' : ndarray F, data arr' = data arr -> im_reshape_bw arr' = im_reshape_bw arr).
Proof.
  assert (Hcases : (size arr = 784%nat /\ exists out, im_reshape_bw arr = inr out) \/
                   (size arr <> 784%nat /\
                    im_reshape_bw arr = inl (Exn ValueError "cannot reshape array"))).
  { unfold im_reshape_bw, reshape.
    destruct (decide (prod_shape [28; 28]%nat = size arr)) as [Hs|Hs].
    - left. split; [simpl in Hs; lia|]. simpl. by eexists.
    - right. split; [simpl in Hs; lia|done]. }
  split; [|split].
  - destruct Hcases as [[Hs [out Hout]]|[Hs Hfail]]; rewrite ?Hout, ?Hfail.
    + split; [by intros [? ?]|done].
    + split; [done|intros _; by eexists].
  - intros e He. destruct Hcases as [[_ [out Hout]]|[_ Hfail]]; [congruence|].
    rewrite Hfail in He. by injection He as <-.
  - intros arr' Hdata. unfold im_reshape_bw, reshape, size. by rewrite Hdata.
Qed.

(** X2.  Flipping the result of [im_reshape_bw] once more gives the plain reshape
    of the elements, scaled by 255. *)
Theorem im_reshape_bw_unflipped (arr : ndarray F) :
  size arr = 784%nat ->
  rbind (im_reshape_bw arr) flipud
  = inr (NdArray [28; 28]%nat (map (fun x => smul x (of_Z 255)) (data arr))).
Proof.
  intros Hsize. unfold im_reshape_bw.
  rewrite reshape_ok by (rewrite Hsize; reflexivity).
  cbn [rbind ok].
  pose proof (flipud_involutive (mul_scalar (NdArray [28; 28]%nat (data arr)) 255)) as Hinv.
  unfold rbind in Hinv |- *.
  destruct (flipud (mul_scalar _ 255)) as [e|out] eqn:Hflip.
  - exfalso. unfold flipud in Hflip. simpl in Hflip. done.
  - apply Hinv; [|done]. unfold wf. simpl. rewrite length_map. exact Hsize.
Qed.
End ReshapeBw.

Lemma im_reshape_bw_unflipped_witness :
  rbind (im_reshape_bw (NdArray [784%nat] (seqZ 0 784))) flipud
  = inr (NdArray [28; 28]%nat (map (fun x => x * 255) (seqZ 0 784))).
Proof.
  exact (im_reshape_bw_unflipped (NdArray [784%nat] (seqZ 0 784)) eq_refl).
Defined.

(** ** The pixels and the shape of [im_colorize_rgba] *)

Section ChunkMaps.
Context {A B : Type}.

Lemma chunks_fmap (f : A -> B) k n (l : list A) :
  chunks k n (map f l) = map (map f) (chunks k n l).
Proof.
  revert l; induction k as [|k IH]; intros l; simpl; [done|].
  rewrite <- fmap_take, <- fmap_drop. f_equal. apply IH.
Qed.

Lemma take_flat_map (g : A -> list B) m n (l : list A) :
  (forall x, length (g x) = m) ->
  take (n * m) (flat_map g l) = flat_map g (take n l).
Proof.
  intros Hg. revert l; induction n as [|n IH]; intros l; [done|].
  destruct l as [|x l]; [simpl; by rewrite take_nil|]. simpl.
  replace (m + n * m)%nat with (length (g x) + n * m)%nat by (rewrite Hg; lia).
  by rewrite take_app_add, IH.
Qed.

Lemma drop_flat_map (g : A -> list B) m n (l : list A) :
  (forall x, length (g x) = m) ->
  drop (n * m) (flat_map g l) = flat_map g (drop n l).
Proof.
  intros Hg. revert l; induction n as [|n IH]; intros l; [done|].
  destruct l as [|x l]; [simpl; by rewrite drop_nil|]. simpl.
  replace (m + n * m)%nat with (length (g x) + n * m)%nat by (rewrite Hg; lia).
  by rewrite drop_app_add, IH.
Qed.

Lemma chunks_flat_map (g : A -> list B) m k n (l : list A) :
  (forall x, length (g x) = m) ->
  chunks k (n * m) (flat_map g l) = map (flat_map g) (chunks k n l).
Proof.
  intros Hg. revert l; induction k as [|k IH]; intros l; simpl; [done|].
  rewrite (take_flat_map g m), (drop_flat_map g m) by done. f_equal. apply IH.
Qed.

Lemma concat_flat_map (g : A -> list B) (ls : list (list A)) :
  concat (map (flat_map g) ls) = flat_map g (concat ls).
Proof.
  induction ls as [|c ls IH]; [done|]. simpl. by rewrite IH, flat_map_app.
Qed.
End ChunkMaps.

Section ColorizePixels.
Context `{Scalar F}.

Lemma pack_words_pixels (label : Z) (l : list F) :
  pack_words
    (map (fun v => to_int v `mod` 256)
       (map (fun x => smul x (of_Z 255))
          (flat_map (fun x => map (smul x) (tab10 label)) l)))
  = map (rgba_word label) l.
Proof.
  unfold rgba_word, channel_byte, tab10.
  destruct (nth _ tab10_rgb _) as [[r g] b].
  induction l as [|x l IH]; [done|]. simpl. f_equal. exact IH.
Qed.

(** The words of the result, for an image whose colour channels are the last
    axis of [rows] blocks of [n] pixels. *)
Lemma colorize_data (label : Z) (rows n : nat) (d : list F) :
  pack_words
    (map (fun v => to_int v `mod` 256)
       (concat (reverse (chunks rows (n * 4)
          (map (fun x => smul x (of_Z 255))
             (flat_map (fun x => map (smul x) (tab10 label)) d))))))
  = map (rgba_word label) (concat (reverse (chunks rows n d))).
Proof.
  rewrite chunks_fmap.
  rewrite (chunks_flat_map _ 4) by (intros; by rewrite length_map, tab10_length).
  rewrite <- !fmap_reverse.
  rewrite <- concat_map.
  rewrite concat_flat_map.
  apply pack_words_pixels.
Qed.

(** X3.  For a vector of 784 pixels, the word at row [i], column [j] of the result
    packs, least significant byte first, the red, green, blue and alpha bytes
    of the class colour scaled by pixel [28 * (27 - i) + j] of the input: the
    image is flipped upside down and coloured pixel by pixel. *)
Theorem im_colorize_rgba_pixels (arr : ndarray F) (label : Z) :
  ndim arr = 1%nat -> size arr = 784%nat ->
  exists out,
    im_colorize_rgba arr label = inr out /\
    forall i j : nat, (i < 28)%nat -> (j < 28)%nat ->
      data out !! (28 * i + j)%nat
      = rgba_word label <$> data arr !! (28 * (27 - i) + j)%nat.
Proof.
  intros Hdim Hsize. unfold im_colorize_rgba.
  rewrite decide_True by done.
  rewrite reshape_ok
    by (rewrite mul_vector_size, tab10_length;
        change (size (newaxis_last arr)) with (size arr);
        rewrite Hsize; reflexivity).
  cbn [rbind ok]. rewrite (colorize_tail _ [28; 28]%nat) by reflexivity.
  eexists. split; [reflexivity|].
  intros i j Hi Hj.
  cbn [data shape mul_scalar mul_vector newaxis_last hd tail].
  change (prod_shape [28; 4]%nat) with (28 * 4)%nat.
  rewrite colorize_data, list_lookup_fmap.
  replace (28 * i + j)%nat with (i * 28 + j)%nat by lia.
  rewrite flipped_lookup by (done || lia).
  do 2 f_equal. lia.
Qed.

(** X4.  A well-formed matrix of [a] rows and [b] columns is accepted whatever
    [a] and [b]: the result holds one 32-bit word per entry, on the axes of
    the matrix that are longer than 1, followed by an axis of length 1. *)
Theorem im_colorize_rgba_matrix_words (arr : ndarray F) (label : Z) (a b : nat) :
  shape arr = [a; b] -> wf arr ->
  exists out,
    im_colorize_rgba arr label = inr out /\
    shape out = filter (fun d => d <> 1%nat) [a; b] ++ [1%nat] /\
    data out = map (rgba_word label) (concat (reverse (chunks a b (data arr)))) /\
    length (data out) = (a * b)%nat.
Proof.
  intros Hshape Hwf. unfold im_colorize_rgba, ndim. rewrite Hshape.
  rewrite decide_False by (simpl; lia). rewrite decide_True by done.
  cbn [rbind ok].
  rewrite (colorize_tail _ [a; b]).
  2:{ unfold mul_scalar, mul_vector, newaxis_last. cbn [shape].
      by rewrite Hshape, removelast_last, tab10_length. }
  eexists. split; [reflexivity|]. split; [reflexivity|].
  cbn [data shape mul_scalar mul_vector newaxis_last].
  rewrite Hshape. cbn [app removelast hd tail].
  rewrite tab10_length.
  change (prod_shape [b; 4]%nat) with (b * (4 * 1))%nat.
  replace (b * (4 * 1))%nat with (b * 4)%nat by lia.
  rewrite colorize_data. split; [reflexivity|].
  rewrite length_map, flipped_length; [done|].
  unfold wf in Hwf. rewrite Hwf, Hshape. simpl. lia.
Qed.
End ColorizePixels.

Lemma im_colorize_rgba_pixels_witness :
  exists out,
    im_colorize_rgba (NdArray [784%nat] (replicate 784 (1:Q))) 3 = inr out /\
    forall i j : nat, (i < 28)%nat -> (j < 28)%nat ->
      data out !! (28 * i + j)%nat
      = rgba_word 3 <$> replicate 784 (1:Q) !! (28 * (27 - i) + j)%nat.
Proof.
  exact (im_colorize_rgba_pixels (NdArray [784%nat] (replicate 784 (1:Q))) 3
           eq_refl eq_refl).
Defined.

Lemma im_colorize_rgba_matrix_words_witness :
  exists out,
    im_colorize_rgba (NdArray [1; 2]%nat [1 # 2; 1]%Q) 1 = inr out /\
    shape out = [2; 1]%nat /\
    data out = map (rgba_word 1) [1 # 2; 1]%Q /\
    length (data out) = 2%nat.
Proof.
  exact (im_colorize_rgba_matrix_words (NdArray [1; 2]%nat [1 # 2; 1]%Q) 1 1 2
           eq_refl eq_refl).
Defined.

(** ** What [plot_digits_embedding] draws, call by call *)

Lemma py_index_nat {A} (l : list A) (i : nat) :
  py_index l (Z.of_nat i)
  = match l !! i with
    | Some a => inr a
    | None => inl (Exn IndexError "index out of range")
    end.
Proof.
  unfold py_index. cbv zeta.
  destruct (decide (Z.of_nat i < 0)) as [?|_]; [lia|].
  destruct (l !! i) as [a|] eqn:Hl.
  - apply lookup_lt_Some in Hl as Hlt.
    destruct (decide (0 <= Z.of_nat i < Z.of_nat (length l))) as [_|?]; [|lia].
    by rewrite Nat2Z.id, Hl.
  - apply lookup_ge_None in Hl.
    destruct (decide (0 <= Z.of_nat i < Z.of_nat (length l))) as [?|_]; [lia|done].
Qed.

Section DrawingLoop.
Context {E : Type}.

Lemma add_calls_nil (w : world E) : add_calls w [] = w.
Proof. destruct w. unfold add_calls. simpl. by rewrite app_nil_r. Qed.

Lemma add_calls_app (w : world E) (c1 c2 : list plt_call) :
  add_calls (add_calls w c1) c2 = add_calls w (c1 ++ c2).
Proof. unfold add_calls. simpl. by rewrite (assoc_L (++)). Qed.

(** The loop over the rows, from row [s] on. *)
Lemma text_loop (X : list (npfloat * npfloat)) (y : list Z) (len s : nat) (w : world E) :
  (s + len = length X)%nat -> (s <= length y)%nat ->
  for_each (seqZ (Z.of_nat s) (Z.of_nat len))
    (fun i => mbind (lift (py_index X i)) (fun Xi =>
              mbind (lift (py_index y i)) (fun yi =>
              plt_do (Text Xi.1 Xi.2 (pretty yi) (tab10 yi) "bold" 9)))) w
  = (if decide (s + len <= length y)%nat then inr tt
     else inl (Exn IndexError "index out of range"),
     add_calls w (zip_with text_call (drop s X) (drop s y))).
Proof.
  revert s w. induction len as [|len IH]; intros s w HX Hy.
  - rewrite seqZ_nil by lia. simpl.
    rewrite decide_True by lia.
    rewrite (drop_ge X) by lia. simpl. by rewrite add_calls_nil.
  - rewrite seqZ_cons by lia.
    replace (Z.succ (Z.of_nat s)) with (Z.of_nat (S s)) by lia.
    replace (Z.pred (Z.of_nat (S len))) with (Z.of_nat len) by lia.
    cbn [for_each].
    destruct (X !! s) as [p|] eqn:Hp; [|apply lookup_ge_None in Hp; lia].
    rewrite (drop_S X p s Hp).
    destruct (y !! s) as [yi|] eqn:Hyi.
    + rewrite (drop_S y yi s Hyi). apply lookup_lt_Some in Hyi as Hlt.
      erewrite mbind_ok.
      2:{ unfold mbind, lift, plt_do. rewrite !py_index_nat, Hp, Hyi. reflexivity. }
      rewrite IH by lia.
      fold (add_calls w [Text p.1 p.2 (pretty yi) (tab10 yi) "bold" 9]).
      rewrite add_calls_app. simpl.
      f_equal. repeat case_decide; done || lia.
    + apply lookup_ge_None in Hyi as Hge.
      rewrite (drop_ge y) by lia. rewrite zip_with_nil_r, add_calls_nil.
      rewrite decide_False by lia.
      apply mbind_raise.
      unfold mbind, lift. by rewrite !py_index_nat, Hp, Hyi.
Qed.

Lemma plt_do_run (c : plt_call) (w : world E) :
  plt_do c w = (inr tt, add_calls w [c]).
Proof. reflexivity. Qed.

Lemma plt_subplot_run (nrows ncols index : Z) (w : world E) :
  plt_subplot nrows ncols index w
  = (inr (nrows, ncols, index), add_calls w [Subplot (nrows, ncols, index)]).
Proof. reflexivity. Qed.

Lemma closing_run (title : option string) (remove_ticks : bool) (w : world E) :
  mbind (if remove_ticks
         then mbind (plt_do (Xticks [])) (fun _ => plt_do (Yticks []))
         else mret tt)
        (fun _ => match title with
                  | Some t => plt_do (Title t)
                  | None => mret tt
                  end) w
  = (inr tt, add_calls w (closing_calls title remove_ticks)).
Proof.
  destruct w, remove_ticks, title;
    unfold closing_calls, add_calls, mbind, plt_do, mret; simpl;
    rewrite ?app_nil_r, <- ?(assoc_L (++)); reflexivity.
Qed.

(** The whole function on a non-empty array. *)
Lemma plot_digits_embedding_run (X2d : list (Q * Q)) (y : list Z)
    (title : option string) (remove_ticks : bool) (x_min x_max : Q * Q) (w : world E) :
  np_min0 X2d = inr x_min -> np_max0 X2d = inr x_max ->
  plot_digits_embedding X2d y title remove_ticks w
  = let texts := zip_with text_call (rescale X2d x_min x_max) y in
    if decide (length X2d <= length y)%nat
    then (inr tt,
          add_calls w ([Figure (20, 10)%Q; Subplot (1, 1, 1)] ++ texts
                       ++ closing_calls title remove_ticks))
    else (inl (Exn IndexError "index out of range"),
          add_calls w ([Figure (20, 10)%Q; Subplot (1, 1, 1)] ++ texts)).
Proof.
  intros Hmin Hmax. unfold plot_digits_embedding.
  erewrite mbind_ok by (unfold lift; by rewrite Hmin).
  erewrite mbind_ok by (unfold lift; by rewrite Hmax).
  erewrite mbind_ok by apply plt_do_run.
  erewrite mbind_ok by apply plt_subplot_run.
  rewrite add_calls_app.
  assert (Hlen : length (rescale X2d x_min x_max) = length X2d)
    by (unfold rescale; by rewrite length_map).
  rewrite Hlen.
  pose proof (text_loop (rescale X2d x_min x_max) y (length X2d) 0
                (add_calls w ([Figure (20, 10)%Q] ++ [Subplot (1, 1, 1)]))
                ltac:(simpl; lia) ltac:(lia)) as Hloop.
  change (Z.of_nat 0) with 0 in Hloop. rewrite !drop_0 in Hloop.
  simpl Nat.add in Hloop. rewrite add_calls_app in Hloop.
  cbv zeta. destruct (decide (length X2d <= length y)%nat) as [Hle|Hgt].
  - erewrite mbind_ok by exact Hloop.
    rewrite closing_run, add_calls_app. by rewrite <- !(assoc_L (++)).
  - erewrite mbind_raise by exact Hloop. by rewrite <- !(assoc_L (++)).
Qed.

Lemma np_min0_nonempty (X2d : list (Q * Q)) :
  X2d <> [] -> exists x_min, np_min0 X2d = inr x_min.
Proof. destruct X2d as [|r X2d]; [done|]. intros _. by eexists. Qed.

Lemma np_max0_nonempty (X2d : list (Q * Q)) :
  X2d <> [] -> exists x_max, np_max0 X2d = inr x_max.
Proof. destruct X2d as [|r X2d]; [done|]. intros _. by eexists. Qed.

(** X5.  The function raises [ValueError] exactly on an empty array, and then
    before anything is drawn: not even a figure is opened. *)
Theorem plot_digits_embedding_empty (X2d : list (Q * Q)) (y : list Z)
    (title : option string) (remove_ticks : bool) (w : world E) :
  (raises ValueError (plot_digits_embedding X2d y title remove_ticks w).1 <-> X2d = []) /\
  (X2d = [] -> (plot_digits_embedding X2d y title remove_ticks w).2 = w).
Proof.
  destruct (decide (X2d = [])) as [->|Hne].
  - split; [|done]. split; [done|]. intros _. by eexists.
  - split; [|done].
    destruct (np_min0_nonempty X2d Hne) as [x_min Hmin].
    destruct (np_max0_nonempty X2d Hne) as [x_max Hmax].
    rewrite (plot_digits_embedding_run _ _ _ _ _ _ _ Hmin Hmax). cbv zeta.
    split; [|done]. case_decide; by intros [? ?].
Qed.

(** X6.  With a label for every row, the function returns normally after a
    figure, one subplot, one [plt.text] per row in the order of the rows
    (each at the rescaled position of its row, with its label as text), then
    the ticks and the title. *)
Theorem plot_digits_embedding_complete (X2d : list (Q * Q)) (y : list Z)
    (title : option string) (remove_ticks : bool) (x_min x_max : Q * Q) (w : world E) :
  np_min0 X2d = inr x_min -> np_max0 X2d = inr x_max ->
  (length X2d <= length y)%nat ->
  plot_digits_embedding X2d y title remove_ticks w
  = (inr tt,
     add_calls w
       ([Figure (20, 10)%Q; Subplot (1, 1, 1)]
        ++ zip_with text_call (rescale X2d x_min x_max) (take (length X2d) y)
        ++ closing_calls title remove_ticks)).
Proof.
  intros Hmin Hmax Hlen.
  rewrite (plot_digits_embedding_run _ _ _ _ _ _ _ Hmin Hmax).
  cbv zeta. rewrite decide_True by done.
  by rewrite zip_with_take_r' by (unfold rescale; rewrite length_map; lia).
Qed.

(** X7.  With fewer labels than rows, the function raises [IndexError] after
    drawing one text per label; the ticks are not removed and the title is
    not set. *)
Theorem plot_digits_embedding_short_labels (X2d : list (Q * Q)) (y : list Z)
    (title : option string) (remove_ticks : bool) (x_min x_max : Q * Q) (w : world E) :
  np_min0 X2d = inr x_min -> np_max0 X2d = inr x_max ->
  (length y < length X2d)%nat ->
  plot_digits_embedding X2d y title remove_ticks w
  = (inl (Exn IndexError "index out of range"),
     add_calls w
       ([Figure (20, 10)%Q; Subplot (1, 1, 1)]
        ++ zip_with text_call (take (length y) (rescale X2d x_min x_max)) y)).
Proof.
  intros Hmin Hmax Hlen.
  rewrite (plot_digits_embedding_run _ _ _ _ _ _ _ Hmin Hmax).
  cbv zeta. rewrite decide_False by lia.
  by rewrite zip_with_take_l.
Qed.
End DrawingLoop.

Lemma plot_digits_embedding_complete_witness :
  plot_digits_embedding [(1, 5); (3, 7); (2, 6)]%Q [7; 8; 9; 4] (Some "t") true empty_world
  = (inr tt,
     add_calls empty_world
       ([Figure (20, 10)%Q; Subplot (1, 1, 1)]
        ++ zip_with text_call
             (rescale [(1, 5); (3, 7); (2, 6)]%Q (1, 5)%Q (3, 7)%Q)
             (take 3 [7; 8; 9; 4])
        ++ closing_calls (Some "t") true)).
Proof.
  apply (plot_digits_embedding_complete [(1, 5); (3, 7); (2, 6)]%Q [7; 8; 9; 4]
           (Some "t") true (1, 5)%Q (3, 7)%Q empty_world);
    [reflexivity|reflexivity|simpl; lia].
Defined.

Lemma plot_digits_embedding_short_labels_witness :
  plot_digits_embedding [(1, 5); (3, 7); (2, 6)]%Q [7] (Some "t") true empty_world
  = (inl (Exn IndexError "index out of range"),
     add_calls empty_world
       ([Figure (20, 10)%Q; Subplot (1, 1, 1)]
        ++ zip_with text_call
             (take 1 (rescale [(1, 5); (3, 7); (2, 6)]%Q (1, 5)%Q (3, 7)%Q)) [7])).
Proof.
  apply (plot_digits_embedding_short_labels [(1, 5); (3, 7); (2, 6)]%Q [7]
           (Some "t") true (1, 5)%Q (3, 7)%Q empty_world);
    [reflexivity|reflexivity|simpl; lia].
Defined.

(** ** The rescaling is tight and ignores the scale of the input *)

Section RescaleMore.
Local Open Scope Q_scope.














End RescaleMore.



(** ** The interactive embedding *)

Section Comprehension.
Context {A B : Type} (f : A -> result B).



End Comprehension.

Section InteractiveEmbedding.






(** X11.  The colours of the points are the codes of the [tab10] palette: the code
    of class [k] for a label [k] from 0 to 9, of class 0 below and of class 9
    above. *)
Theorem color_code_palette (label : Z) :
  Some (color_code label) = tab10_codes !! Z.to_nat (Z.max 0 (Z.min label 9)).
Proof.
  unfold color_code, tab10.
  assert (Hk : (Z.to_nat (Z.max 0 (Z.min label 9)) < 10)%nat) by lia.
  destruct (Z.to_nat (Z.max 0 (Z.min label 9))) as [|[|[|[|[|[|[|[|[|[|k]]]]]]]]]];
    [vm_compute; reflexivity..|lia].
Qed.
End InteractiveEmbedding.


(** ** The cells that prepare Fashion-MNIST *)

Section Preparation.

Lemma first_rows_length (n rows p : nat) (d : list Z) :
  length d = (rows * p)%nat ->
  length (take (Nat.min n rows * p) d) = (Nat.min n rows * p)%nat.
Proof. intros Hd. rewrite length_take, Hd. nia. Qed.

(** X12.  The split keeps every image and every label exactly once, in order: the
    first 5000 (or all, if there are fewer) go to the validation set, the
    others to the training set, and images and labels are cut at the same
    place. *)
Theorem cell_split_partition (X_train_full : ndarray Z) (y_train_full : list Z)
    (X_test : ndarray Z) (n : nat) (rest : list nat) :
  shape X_train_full = n :: rest -> wf X_train_full ->
  let '(X_valid, X_train, y_valid, y_train, _) :=
    cell_split X_train_full y_train_full X_test in
  shape X_valid = Nat.min (Z.to_nat 5000) n :: rest /\
  shape X_train = (n - Z.to_nat 5000)%nat :: rest /\
  wf X_valid /\ wf X_train /\
  data X_valid ++ data X_train = data (divide_255 X_train_full) /\
  y_valid ++ y_train = y_train_full /\
  (length y_train_full = n ->
   length y_valid = Nat.min (Z.to_nat 5000) n /\
   length y_train = (n - Z.to_nat 5000)%nat).
Proof.
  intros Hshape Hwf. destruct X_train_full as [sh d]. simpl in Hshape. subst sh.
  unfold wf in Hwf. cbn [shape data prod_shape foldr] in Hwf.
  fold (prod_shape rest) in Hwf.
  unfold cell_split, first_rows, rows_from, divide_255, wf.
  cbn [shape data prod_shape foldr]. fold (prod_shape rest).
  set (k := Z.to_nat 5000).
  split; [done|]. split; [done|].
  split; [rewrite length_map; by apply first_rows_length|].
  split.
  { rewrite length_map, length_drop, Hwf. nia. }
  split; [by rewrite <- map_app, take_drop|].
  split; [apply take_drop|].
  intros Hy. rewrite length_take, length_drop. lia.
Qed.

(** X13.  Bytes become numbers between 0 and 1. *)
Theorem divide_255_unit (a : ndarray Z) :
  Forall (fun b => 0 <= b <= 255) (data a) ->
  Forall (fun q => (0 <= q /\ q <= 1)%Q) (data (divide_255 a)).
Proof.
  intros Hbytes. unfold divide_255. cbn [data].
  apply Forall_fmap. eapply Forall_impl; [exact Hbytes|].
  intros b [Hlo Hhi]. simpl.
  assert (H0 : (0 <= inject_Z b)%Q) by (change 0%Q with (inject_Z 0); by rewrite <- Zle_Qle).
  assert (H1 : (inject_Z b <= 255)%Q) by (change 255%Q with (inject_Z 255); by rewrite <- Zle_Qle).
  split.
  - apply Qle_shift_div_l; lra.
  - apply Qle_shift_div_r; lra.
Qed.

(** X14.  The cell that flattens the first 1000 test images succeeds exactly when
    there are at least 1000 of them; with fewer, the reshape raises
    [ValueError].  [X_in] then holds the pixels of the first 1000 images,
    784 per row. *)
Theorem cell_input_space_needs_1000 (X_test : ndarray Q) (y_test : list Z) (n : nat) :
  shape X_test = [n; 28; 28]%nat -> wf X_test ->
  ((Z.to_nat 1000 <= n)%nat ->
   exists X_in,
     cell_input_space X_test y_test
     = inr (first_rows (Z.to_nat 1000) X_test, take (Z.to_nat 1000) y_test, X_in) /\
     shape X_in = [Z.to_nat 1000; 784]%nat /\
     data X_in = take (Z.to_nat 1000 * 784) (data X_test)) /\
  ((n < Z.to_nat 1000)%nat -> raises ValueError (cell_input_space X_test y_test)).
Proof.
  intros Hshape Hwf. destruct X_test as [sh d]. simpl in Hshape. subst sh.
  unfold wf in Hwf. cbn [shape data prod_shape foldr] in Hwf.
  unfold cell_input_space, reshape, size, first_rows.
  cbn [shape data prod_shape foldr].
  set (k := Z.to_nat 1000) in *.
  assert (Hlen : length (take (Nat.min k n * (28 * (28 * 1))) d)
                 = (Nat.min k n * 784)%nat).
  { rewrite length_take, Hwf. lia. }
  rewrite Hlen. split.
  - intros Hn. rewrite decide_True by lia. cbn [rbind ok].
    eexists. split; [reflexivity|]. split; [reflexivity|].
    cbn [data]. f_equal. lia.
  - intros Hn. rewrite decide_False by lia. by eexists.
Qed.
End Preparation.

Lemma cell_split_partition_witness :
  let '(X_valid, X_train, y_valid, y_train, _) :=
    cell_split (NdArray [2; 1; 2]%nat [0; 255; 128; 64]) [3; 4]
               (NdArray [1; 1; 2]%nat [1; 2]) in
  shape X_valid = Nat.min (Z.to_nat 5000) 2 :: [1; 2]%nat /\
  shape X_train = (2 - Z.to_nat 5000)%nat :: [1; 2]%nat /\
  wf X_valid /\ wf X_train /\
  data X_valid ++ data X_train
  = data (divide_255 (NdArray [2; 1; 2]%nat [0; 255; 128; 64])) /\
  y_valid ++ y_train = [3; 4] /\
  (length [3; 4] = 2%nat ->
   length y_valid = Nat.min (Z.to_nat 5000) 2 /\
   length y_train = (2 - Z.to_nat 5000)%nat).
Proof.
  exact (cell_split_partition (NdArray [2; 1; 2]%nat [0; 255; 128; 64]) [3; 4]
           (NdArray [1; 1; 2]%nat [1; 2]) 2 [1; 2]%nat eq_refl eq_refl).
Defined.

Lemma divide_255_unit_witness :
  Forall (fun q => (0 <= q /\ q <= 1)%Q)
         (data (divide_255 (NdArray [2; 1; 2]%nat [0; 255; 128; 64]))).
Proof.
  apply (divide_255_unit (NdArray [2; 1; 2]%nat [0; 255; 128; 64])).
  repeat constructor; simpl; lia.
Defined.

Lemma cell_input_space_needs_1000_witness :
  raises ValueError
    (cell_input_space (NdArray [1; 28; 28]%nat (replicate 784 (0:Q))) [5]).
Proof.
  apply (proj2 (cell_input_space_needs_1000
                  (NdArray [1; 28; 28]%nat (replicate 784 (0:Q))) [5] 1 eq_refl eq_refl)).
  lia.
Defined.

(** ** Running the cells of the convolutional network twice *)

Section Rerun.
Context {E : Type} (L : Libraries E).


End Rerun.


(** ** The projection cells: what they draw, and failures of the library *)

Section ProjectionCells.
Context {E : Type} (L : Libraries E).

Lemma draws_ret {A} (a : A) : draws_at_most (E:=E) 0 (mret a).
Proof. intros w. exists []. simpl. by rewrite app_nil_r. Qed.

Lemma draws_print (s : string) : draws_at_most (E:=E) 0 (print s).
Proof. intros w. exists []. simpl. by rewrite app_nil_r. Qed.

Lemma draws_call {A} (f : E -> result A * E) : draws_at_most 0 (call f).
Proof. intros w. exists []. rewrite call_run. simpl. by rewrite app_nil_r. Qed.

Lemma draws_now : draws_at_most 0 (now L).
Proof. intros w. exists []. rewrite now_run. simpl. by rewrite app_nil_r. Qed.

Lemma draws_bind {A B} (m : M E A) (k : A -> M E B) (a b : nat) :
  draws_at_most a m -> (forall x, draws_at_most b (k x)) ->
  draws_at_most (a + b) (mbind m k).
Proof.
  intros Hm Hk w. unfold mbind.
  destruct (Hm w) as (c1 & Hw1 & Hc1).
  destruct (m w) as [[e|x] w1]; simpl in *.
  - exists c1. split; [done|lia].
  - destruct (Hk x w1) as (c2 & Hw2 & Hc2).
    exists (c1 ++ c2). rewrite Hw2, Hw1, (assoc_L (++)). split; [done|].
    rewrite filter_app, length_app. lia.
Qed.

Lemma draws_plot (X2d : list (Q * Q)) (y : list Z) title remove_ticks :
  draws_at_most (E:=E) (length X2d) (plot_digits_embedding X2d y title remove_ticks).
Proof.
  intros w. destruct (decide (X2d = [])) as [->|Hne].
  { exists []. simpl. by rewrite app_nil_r. }
  destruct (np_min0_nonempty X2d Hne) as [x_min Hmin].
  destruct (np_max0_nonempty X2d Hne) as [x_max Hmax].
  rewrite (plot_digits_embedding_run _ _ _ _ _ _ _ Hmin Hmax). cbv zeta.
  assert (Htexts : (length (filter (fun c => is_text c = true)
                      (zip_with text_call (rescale X2d x_min x_max) y))
                    <= length X2d)%nat).
  { etransitivity; [apply length_filter|].
    rewrite length_zip_with. unfold rescale. rewrite length_map. lia. }
  case_decide; eexists; (split; [reflexivity|]);
    rewrite !filter_app, !length_app.
  - assert (Hclose : filter (fun c => is_text c = true)
                       (closing_calls title remove_ticks) = []).
    { by destruct title, remove_ticks. }
    rewrite Hclose. simpl. lia.
  - simpl. lia.
Qed.

(** X16.  The MDS cell embeds up to 3000 samples but labels at most 1000 of them
    on the figure. *)
Theorem cell_mds_draws_1000 (X : matrix) (y_vis : list Z) :
  draws_at_most 1000 (cell_mds L X y_vis).
Proof.
  unfold cell_mds.
  change 1000%nat with (0 + (0 + (0 + (0 + (0 + (1000 + 0))))))%nat.
  apply draws_bind; [apply draws_print|intros _].
  apply draws_bind; [apply draws_now|intros t0].
  apply draws_bind; [apply draws_call|intros fitted].
  apply draws_bind; [apply draws_print|intros _].
  apply draws_bind; [apply draws_now|intros t1].
  apply draws_bind; [|intros _; apply draws_ret].
  unfold draws_at_most. intros w. destruct (draws_plot (take n_vis_samples fitted.1) y_vis
    (Some ("MDS embedding of the digits (time "
           +:+ format_2f L (t1 - t0)%Q +:+ "s)")) true w) as (calls & Hw & Hn).
  exists calls. split; [done|].
  rewrite length_take in Hn. unfold n_vis_samples in Hn. lia.
Qed.

(** X17.  When the library call of a projection cell raises, the cell raises the
    same exception and nothing is drawn. *)
Theorem projection_failure_draws_nothing (X_vis : matrix) (y_vis : list Z)
    (w : world E) (e : exn) :
  ((SparseRandomProjection_fit_transform L 2 42 X_vis (time L (ext w)).2).1 = inl e ->
   (cell_random_projection L X_vis y_vis w).1 = inl e /\
   plt_calls (cell_random_projection L X_vis y_vis w).2 = plt_calls w) /\
  ((PCA_fit_transform L 2 "auto" X_vis (time L (ext w)).2).1 = inl e ->
   (cell_pca L X_vis y_vis w).1 = inl e /\
   plt_calls (cell_pca L X_vis y_vis w).2 = plt_calls w) /\
  ((MDS_fit_transform L 2 1 100 (take 3000 X_vis) (time L (ext w)).2).1 = inl e ->
   (cell_mds L X_vis y_vis w).1 = inl e /\
   plt_calls (cell_mds L X_vis y_vis w).2 = plt_calls w) /\
  ((TSNE_fit_transform L 2 "random" 42 X_vis (time L (ext w)).2).1 = inl e ->
   (cell_tsne L X_vis y_vis w).1 = inl e /\
   plt_calls (cell_tsne L X_vis y_vis w).2 = plt_calls w).
Proof.
  split; [|split; [|split]]; intros He.
  all: unfold cell_random_projection, cell_pca, cell_mds, cell_tsne.
  all: try (erewrite (mbind_ok (print _)) by reflexivity).
  all: erewrite (mbind_ok (now L)) by apply now_run.
  all: erewrite mbind_raise by (rewrite call_run; simpl; rewrite He; reflexivity).
  all: split; reflexivity.
Qed.
End ProjectionCells.

Lemma projection_failure_draws_nothing_witness :
  let L := with_PCA (sample_libraries true)
             (fun _ _ _ e => (inl (Exn ValueError "empty input"), e)) in
  (cell_pca L [] [] empty_world).1 = inl (Exn ValueError "empty input") /\
  plt_calls (cell_pca L [] [] empty_world).2 = plt_calls empty_world.
Proof.
  intros L.
  apply (proj1 (proj2 (projection_failure_draws_nothing L [] [] empty_world
                         (Exn ValueError "empty input")))).
  reflexivity.
Defined.

(** ** The version check of the tensorflow cell *)

Section VersionCheck.
Context {E : Type} (L : Libraries E).

(** X18.  The check compares strings, not numbers: every version whose text starts
    with the digit 1 is refused with [AssertionError], a release 10.0
    included, and keras is not imported. *)
Theorem version_starting_with_1_refused (w : world E) (rest : string) :
  (import_tensorflow L (ext w)).1 = inr ("1" +:+ rest) ->
  import_tensorflow_checked L w
  = (inl (Exn AssertionError ""),
     World (plt_calls w) (files w) (stdout w) (import_tensorflow L (ext w)).2).
Proof.
  intros Hv. unfold import_tensorflow_checked.
  erewrite mbind_ok by (rewrite call_run, Hv; reflexivity).
  reflexivity.
Qed.
End VersionCheck.

Lemma version_starting_with_1_refused_witness :
  let L := with_tensorflow (sample_libraries true) (fun e => (inr "10.0.1", e)) in
  import_tensorflow_checked L empty_world
  = (inl (Exn AssertionError ""), empty_world).
Proof.
  intros L.
  apply (version_starting_with_1_refused L empty_world "0.0.1"). reflexivity.
Defined.

(** ** The image grid, and the extreme pixels *)

Section ImageGrid.
Context {E : Type}.

Lemma py_index_head {A} (x : A) (l : list A) : py_index (x :: l) 0 = inr x.
Proof.
  change 0 with (Z.of_nat 0). by rewrite py_index_nat.
Qed.

Lemma class_name_defined (label : Z) :
  -10 <= label < 10 -> exists title, py_index class_names label = inr title.
Proof.
  intros Hl. unfold py_index. cbv zeta.
  change (Z.of_nat (length class_names)) with 10.
  destruct (decide (label < 0)); cbv iota.
  - destruct (decide (0 <= label + 10 < 10)) as [_|?]; [|lia].
    destruct (class_names !! Z.to_nat (label + 10)) as [t|] eqn:Ht; [by eexists|].
    apply lookup_ge_None in Ht. simpl in Ht. lia.
  - destruct (decide (0 <= label < 10)) as [_|?]; [|lia].
    destruct (class_names !! Z.to_nat label) as [t|] eqn:Ht; [by eexists|].
    apply lookup_ge_None in Ht. simpl in Ht. lia.
Qed.

(** X19.  On a data set with a first image and a first label that names a class,
    the grid cell opens the figure and the first of its 100 subplots, then
    stops on the placeholder: no image is drawn, the spacing is not adjusted
    and the figure is not shown. *)
Theorem cell_image_grid_stops_at_first (img : ndarray Q) (imgs : list (ndarray Q))
    (label : Z) (labels : list Z) (w : world E) :
  -10 <= label < 10 ->
  cell_image_grid (img :: imgs) (label :: labels) w
  = (inl (Exn NotImplementedError "TODO"),
     add_calls w [Figure (inject_Z 20 * (12 # 10), inject_Z 5 * (12 # 10))%Q;
                  Subplot (5, 20, 1)]).
Proof.
  intros Hlabel. destruct (class_name_defined label Hlabel) as [title Htitle].
  unfold cell_image_grid.
  replace (seqZ 0 5) with [0; 1; 2; 3; 4] by reflexivity.
  replace (seqZ 0 20) with (0 :: seqZ 1 19) by reflexivity.
  erewrite mbind_ok by apply plt_do_run.
  erewrite mbind_raise; [reflexivity|].
  apply for_each_raise. cbv beta. apply for_each_raise.
  change (20 * 0 + 0) with 0.
  erewrite mbind_ok by apply plt_subplot_run.
  rewrite add_calls_app.
  unfold mbind, lift, plot_image, mraise.
  by rewrite !py_index_head, Htitle.
Qed.
End ImageGrid.

Lemma cell_image_grid_stops_at_first_witness :
  cell_image_grid [NdArray [1; 1]%nat [0%Q]] [9] empty_world
  = (inl (Exn NotImplementedError "TODO"),
     add_calls empty_world
       [Figure (inject_Z 20 * (12 # 10), inject_Z 5 * (12 # 10))%Q; Subplot (5, 20, 1)]).
Proof.
  apply (cell_image_grid_stops_at_first (NdArray [1; 1]%nat [0%Q]) [] 9 [] empty_world).
  lia.
Defined.

(** X20.  A pixel of value 0 becomes the word 0, transparent black, whatever the
    class; a pixel of value 1 becomes the colour of the class, fully
    opaque. *)
Theorem rgba_word_extremes (label : Z) :
  rgba_word label 0%Q = 0 /\
  match tab10_rgb !! Z.to_nat (Z.max 0 (Z.min label 9)) with
  | Some (r, g, b) => rgba_word label 1%Q = pack_uint32 r g b 255
  | None => False
  end.
Proof.
  unfold rgba_word, tab10.
  assert (Hk : (Z.to_nat (Z.max 0 (Z.min label 9)) < 10)%nat) by lia.
  destruct (Z.to_nat (Z.max 0 (Z.min label 9))) as [|[|[|[|[|[|[|[|[|[|k]]]]]]]]]];
    [vm_compute; split; reflexivity..|lia].
Qed.

Lemma im_reshape_bw_accepts_witness :
  im_reshape_bw (NdArray [28; 28]%nat (seqZ 0 784))
  = im_reshape_bw (NdArray [784%nat] (seqZ 0 784)).
Proof.
  apply (proj2 (proj2 (im_reshape_bw_accepts (NdArray [784%nat] (seqZ 0 784))))).
  reflexivity.
Defined.

Lemma plot_digits_embedding_empty_witness :
  (plot_digits_embedding [] [1; 2] (Some "t") true empty_world).2 = empty_world.
Proof.
  apply (proj2 (plot_digits_embedding_empty [] [1; 2] (Some "t") true empty_world)).
  reflexivity.
Defined.
